(** * go-user-api: the User Service, embedded and verified

    A shallow embedding of [internal/service/user_service.go] together with
    the pieces it relies on: the [UserRepository] interface
    ([internal/repository]), the DTOs of [internal/models], and the two
    functions of Go's [time] package the service calls with the layout
    ["2006-01-02"].

    Conventions.
    - Go's [int] and [int64] are 64-bit two's-complement integers (the
      Dockerfile builds the server for 64-bit Linux), [int32] is 32-bit.
      They are carried as [Z] and every arithmetic result is wrapped
      explicitly.
    - A Go string is a [string] of 8-bit characters.
    - A function returning [(T, error)] returns a pair [T * option error];
      [None] is Go's [nil] error.
    - Calls to the repository are the visible effects of the service: a
      service method is a tree of repository calls ([Svc]), which [exec]
      runs against any implementation of the [UserRepository] interface,
      recording the calls made.
    - [context.Context] is passed through untouched by the service and is
      left out; [time.Now()] is an explicit argument [now]. *)

From Stdlib Require Import ZArith Lia Bool List String Ascii.
From Stdlib Require Import DecimalString.
Import ListNotations.

Local Open Scope string_scope.
Local Open Scope Z_scope.

(** ** Fixed-width integers *)

Module GoInt.

(** Two's-complement representative of [z] on [w] bits. *)
Definition wrap (w : Z) (z : Z) : Z :=
  (z + 2 ^ (w - 1)) mod 2 ^ w - 2 ^ (w - 1).

Definition in_range (w : Z) (z : Z) : Prop :=
  - 2 ^ (w - 1) <= z < 2 ^ (w - 1).

Definition int (z : Z) : Z := wrap 64 z.
Definition int64 (z : Z) : Z := wrap 64 z.
Definition int32 (z : Z) : Z := wrap 32 z.

Definition is_int (z : Z) : Prop := in_range 64 z.
Definition is_int64 (z : Z) : Prop := in_range 64 z.
Definition is_int32 (z : Z) : Prop := in_range 32 z.

Definition MaxInt64 : Z := 9223372036854775807.
Definition MaxInt32 : Z := 2147483647.

(** [x + y], [x - y], [x * y] on [int] / [int64]. *)
Definition add (x y : Z) : Z := wrap 64 (x + y).
Definition sub (x y : Z) : Z := wrap 64 (x - y).
Definition mul (x y : Z) : Z := wrap 64 (x * y).
(** [x / y] truncates toward zero; the only overflow is
    [MinInt64 / -1]. *)
Definition div (x y : Z) : Z := wrap 64 (Z.quot x y).

End GoInt.

(** ** Go's [time] package, as far as the service uses it *)

(** The calendar reading of a [time.Time]: what [Year()], [Month()] and
    [Day()] return.  The service reads nothing else. *)
Record Time : Type := Date { Year : Z; Month : Z; Day : Z }.

(** The zero [time.Time], January 1, year 1. *)
Definition Time_zero : Time := Date 1 1 1.

(** Years for which the subtraction in [CalculateAge] stays inside
    [int].  [Year()] of any [time.Time] is within a few hundred billion
    years of year 1 (the instant is a 64-bit count of seconds), far inside
    this bound. *)
Definition representable (t : Time) : Prop :=
  - 2 ^ 62 < Year t < 2 ^ 62.

Module time.

Definition isLeap (year : Z) : bool :=
  (year mod 4 =? 0) && (negb (year mod 100 =? 0) || (year mod 400 =? 0)).

Definition daysIn (m year : Z) : Z :=
  if (m =? 2) && isLeap year then 29
  else match m with
       | 1 | 3 | 5 | 7 | 8 | 10 | 12 => 31
       | 4 | 6 | 9 | 11 => 30
       | 2 => 28
       | _ => 0
       end.

(** [isDigit(s, i)]: [i] is in range and [s[i]] is a decimal digit. *)
Definition digit_val (c : ascii) : option Z :=
  let n := Z.of_N (N_of_ascii c) in
  if (48 <=? n) && (n <=? 57) then Some (n - 48) else None.

Definition isDigit (s : string) (i : nat) : bool :=
  match String.get i s with
  | Some c => match digit_val c with Some _ => true | None => false end
  | None => false
  end.

(** [leadingInt]: the longest prefix of digits, as a number, and the rest;
    fails once the number exceeds [1 << 63]. *)
Fixpoint leadingInt_from (x : Z) (s : string) : option (Z * string) :=
  match s with
  | EmptyString => Some (x, s)
  | String c rest =>
      match digit_val c with
      | None => Some (x, s)
      | Some d =>
          if x >? 2 ^ 63 / 10 then None
          else
            let x' := x * 10 + d in
            if x' >? 2 ^ 63 then None else leadingInt_from x' rest
      end
  end.

Definition leadingInt (s : string) : option (Z * string) :=
  leadingInt_from 0 s.

(** [atoi]: an optional sign, then digits up to the end of the string. *)
Definition atoi (s : string) : option Z :=
  let '(neg, s) :=
    match s with
    | String "-" rest => (true, rest)
    | String "+" rest => (false, rest)
    | _ => (false, s)
    end in
  match leadingInt s with
  | Some (q, EmptyString) =>
      let x := GoInt.int q in
      Some (if neg then GoInt.int (- x) else x)
  | _ => None
  end.

(** [getnum(s, fixed)]: one or two digits; with [fixed], exactly two. *)
Definition getnum (s : string) (fixed : bool) : option (Z * string) :=
  match s with
  | String c0 rest0 =>
      match digit_val c0 with
      | None => None
      | Some d0 =>
          match rest0 with
          | String c1 rest1 =>
              match digit_val c1 with
              | Some d1 => Some (d0 * 10 + d1, rest1)
              | None => if fixed then None else Some (d0, rest0)
              end
          | EmptyString => if fixed then None else Some (d0, rest0)
          end
      end
  | EmptyString => None
  end.

(** [skip(value, prefix)] for a prefix of one character that is not a
    space: the value must start with it. *)
Definition skip1 (value : string) (prefix : ascii) : option string :=
  match value with
  | String c rest => if Ascii.eqb c prefix then Some rest else None
  | EmptyString => None
  end.

(** [time.Parse("2006-01-02", value)].  The layout splits into the
    chunks [stdLongYear], ["-"] [stdZeroMonth], ["-"] [stdZeroDay]; the
    value is consumed chunk by chunk, nothing may be left over, and the
    day is checked against the length of the month at the end.  [None]
    stands for a non-nil error. *)
Definition Parse (value : string) : option Time :=
  (* stdLongYear *)
  if (String.length value <? 4)%nat || negb (isDigit value 0) then None
  else
    let p := substring 0 4 value in
    let value := substring 4 (String.length value - 4) value in
    match atoi p with
    | None => None
    | Some year =>
        (* "-", stdZeroMonth *)
        match skip1 value "-" with
        | None => None
        | Some value =>
            match getnum value true with
            | None => None
            | Some (month, value) =>
                if (month <=? 0) || (12 <? month) then None
                else
                  (* "-", stdZeroDay *)
                  match skip1 value "-" with
                  | None => None
                  | Some value =>
                      match getnum value true with
                      | None => None
                      | Some (day, value) =>
                          (* end of layout: no extra text *)
                          if negb (String.length value =? 0)%nat then None
                          else if (day <? 1) || (day >? daysIn month year)
                          then None
                          else Some (Date year month day)
                      end
                  end
            end
        end
    end.

(** [appendInt(b, x, width)]: decimal digits of [x], zero-padded on the
    left to [width], after a minus sign when [x] is negative. *)
Fixpoint zeros (n : nat) : string :=
  match n with O => "" | S n' => String "0" (zeros n') end.

Definition appendInt (x : Z) (width : nat) : string :=
  let digits := NilEmpty.string_of_uint (N.to_uint (Z.to_N (Z.abs x))) in
  let sign := if x <? 0 then "-" else "" in
  let pad := zeros (width - String.length digits)%nat in
  (sign ++ pad ++ digits)%string.

(** [t.Format("2006-01-02")]. *)
Definition Format (t : Time) : string :=
  (appendInt (Year t) 4 ++ "-" ++ appendInt (Month t) 2
     ++ "-" ++ appendInt (Day t) 2)%string.

End time.


(** ** Data model *)

Module pgtype.
(** [pgtype.Date]: a calendar date and its validity flag. *)
Record Date : Type := mkDate { Time : Time; Valid : bool }.
End pgtype.

(** Go's [error] values.  [errors_New text] is what [errors.New(text)]
    builds; the other two stand for what a store hands back (no row for
    the id, any other failure). *)
Inductive error : Type :=
| errors_New (text : string)
| ErrNoRows
| ErrStore (text : string).

Module db.
(** The row type of the generated query code: the five columns every
    query on [users] returns.  [ID] is an [int32]; the two stamps are
    kept by the store and never read by the service. *)
Record User : Type := mkUser {
  ID : Z;
  Name : string;
  Dob : pgtype.Date;
  CreatedAt : Z;
  UpdatedAt : Z
}.

(** [db.User{}] *)
Definition User_zero : User :=
  mkUser 0 "" (pgtype.mkDate Time_zero false) 0 0.
End db.

Module models.
Record UserResponse : Type := mkUserResponse {
  ID : Z;
  Name : string;
  DOB : string;
  Age : option Z          (* [*int], [nil] when omitted *)
}.

Record UsersListResponse : Type := mkUsersListResponse {
  Data : list UserResponse;
  Total : Z;              (* [int64] *)
  Page : Z;               (* [int] *)
  Limit : Z;              (* [int] *)
  TotalPages : Z          (* [int] *)
}.

(** [models.UsersListResponse{}] *)
Definition UsersListResponse_zero : UsersListResponse :=
  mkUsersListResponse [] 0 0 0 0.

(** The request bodies.  Both carry the tags
    [Name: validate:"required,min=2,max=100"] and
    [DOB: validate:"required"]. *)
Record CreateUserRequest : Type := mkCreateUserRequest {
  req_Name : string;
  req_DOB : string
}.

Record UpdateUserRequest : Type := mkUpdateUserRequest {
  upd_Name : string;
  upd_DOB : string
}.
End models.

(** ** The repository interface and programs over it *)

(** One constructor per method of [repository.UserRepository], with the
    arguments the method takes. *)
Inductive RepoCall : Type :=
| Create (name dob : string)
| GetByID (id : Z)
| List (limit offset : Z)
| Count
| Update (id : Z) (name dob : string)
| Delete (id : Z).

(** What each method returns. *)
Definition Resp (c : RepoCall) : Type :=
  match c with
  | Create _ _ | GetByID _ | Update _ _ _ => (db.User * option error)%type
  | List _ _ => (list db.User * option error)%type
  | Count => (Z * option error)%type
  | Delete _ => option error
  end.

(** A service method: it either returns, or calls the repository and goes
    on with the answer. *)
Inductive Svc (R : Type) : Type :=
| Ret (r : R)
| Call (c : RepoCall) (k : Resp c -> Svc R).

Arguments Ret {R} r.
Arguments Call {R} c k.

Fixpoint bind {A B : Type} (m : Svc A) (f : A -> Svc B) : Svc B :=
  match m with
  | Ret a => f a
  | Call c k => Call c (fun x => bind (k x) f)
  end.

Definition call (c : RepoCall) : Svc (Resp c) := Call c Ret.

Notation "x <- m ;; f" := (bind m (fun x => f))
  (at level 61, m at next level, right associativity).
Notation "' pat <- m ;; f" := (bind m (fun x => match x with pat => f end))
  (at level 61, pat pattern, m at next level, right associativity).

(** An implementation of [repository.UserRepository] over a store of
    type [S]: each method reads and updates the store. *)
Class UserRepository (S : Type) : Type := {
  repo_Create : string -> string -> S -> (db.User * option error) * S;
  repo_GetByID : Z -> S -> (db.User * option error) * S;
  repo_List : Z -> Z -> S -> (list db.User * option error) * S;
  repo_Count : S -> (Z * option error) * S;
  repo_Update : Z -> string -> string -> S -> (db.User * option error) * S;
  repo_Delete : Z -> S -> option error * S
}.

Definition handle {S : Type} `{UserRepository S} (c : RepoCall)
  : S -> Resp c * S :=
  match c with
  | Create name dob => repo_Create name dob
  | GetByID id => repo_GetByID id
  | List limit offset => repo_List limit offset
  | Count => repo_Count
  | Update id name dob => repo_Update id name dob
  | Delete id => repo_Delete id
  end.

(** The outcome of running a method: its result, the store afterwards and
    the repository calls it made, in order. *)
Record Outcome (S R : Type) : Type := mkOutcome {
  result : R;
  store : S;
  calls : list RepoCall
}.

Arguments mkOutcome {S R} result store calls.
Arguments result {S R} o.
Arguments store {S R} o.
Arguments calls {S R} o.

Fixpoint exec {S : Type} `{UserRepository S} {R : Type}
  (p : Svc R) (s : S) : Outcome S R :=
  match p with
  | Ret r => mkOutcome r s []
  | Call c k =>
      let '(x, s') := handle c s in
      let o := exec (k x) s' in
      mkOutcome (result o) (store o) (c :: calls o)
  end.

(** ** The service *)

Module service.

(** [CalculateAge], with [time.Now()] as [now]. *)
Definition CalculateAge (now dob : Time) : Z :=
  let age := GoInt.sub (Year now) (Year dob) in
  if (Month now <? Month dob)
     || ((Month now =? Month dob) && (Day now <? Day dob))
  then GoInt.sub age 1
  else age.

Definition CreateUser (name dob : string)
  : Svc (db.User * option error) :=
  if String.eqb name "" then
    Ret (db.User_zero, Some (errors_New "name cannot be empty"))
  else
    match time.Parse dob with
    | None =>
        Ret (db.User_zero,
             Some (errors_New "invalid date format, use YYYY-MM-DD"))
    | Some _ => call (Create name dob)
    end.

Definition GetUserByID (id : Z) : Svc (db.User * option error) :=
  call (GetByID id).

(** The loop of [ListUsers] that maps rows to responses. *)
Definition toResponse (now : Time) (user : db.User)
  : models.UserResponse :=
  let age := CalculateAge now (pgtype.Time (db.Dob user)) in
  models.mkUserResponse (db.ID user) (db.Name user)
    (time.Format (pgtype.Time (db.Dob user))) (Some age).

Definition responseData (now : Time) (users : list db.User)
  : list models.UserResponse :=
  fold_left (fun acc user => (acc ++ [toResponse now user])%list) users [].

(** The page count of [ListUsers]:
    [int((total + int64(limit) - 1) / int64(limit))]. *)
Definition totalPages (total limit : Z) : Z :=
  GoInt.int
    (GoInt.div
       (GoInt.sub (GoInt.add total (GoInt.int64 limit)) 1)
       (GoInt.int64 limit)).

Definition ListUsers (now : Time) (page limit : Z)
  : Svc (models.UsersListResponse * option error) :=
  let page := if page <? 1 then 1 else page in
  let limit := if limit <? 1 then 10 else limit in
  let limit := if 100 <? limit then 100 else limit in
  let offset := GoInt.mul (GoInt.sub page 1) limit in
  '(total, err) <- call Count ;;
  match err with
  | Some _ => Ret (models.UsersListResponse_zero, err)
  | None =>
      '(users, err) <- call (List (GoInt.int32 limit) (GoInt.int32 offset)) ;;
      match err with
      | Some _ => Ret (models.UsersListResponse_zero, err)
      | None =>
          let totalPages := totalPages total limit in
          Ret (models.mkUsersListResponse
                 (responseData now users) total page limit totalPages,
               None)
      end
  end.

Definition UpdateUser (id : Z) (name dob : string)
  : Svc (db.User * option error) :=
  if String.eqb name "" then
    Ret (db.User_zero, Some (errors_New "name cannot be empty"))
  else
    match time.Parse dob with
    | None =>
        Ret (db.User_zero,
             Some (errors_New "invalid date format, use YYYY-MM-DD"))
    | Some _ => call (Update id name dob)
    end.

Definition DeleteUser (id : Z) : Svc (option error) :=
  call (Delete id).

End service.

(** ** A repository with canned answers

    The substitute implementation used to run the service on concrete
    inputs: every method answers from the store and leaves it as it is. *)

Record Canned : Type := mkCanned {
  canned_user : db.User * option error;
  canned_list : list db.User * option error;
  canned_count : Z * option error;
  canned_delete : option error
}.

#[export] Instance cannedRepo : UserRepository Canned := {
  repo_Create := fun _ _ s => (canned_user s, s);
  repo_GetByID := fun _ s => (canned_user s, s);
  repo_List := fun _ _ s => (canned_list s, s);
  repo_Count := fun s => (canned_count s, s);
  repo_Update := fun _ _ _ s => (canned_user s, s);
  repo_Delete := fun _ s => (canned_delete s, s)
}.

Definition alice : db.User :=
  db.mkUser 1 "Alice" (pgtype.mkDate (Date 1990 5 10) true) 0 0.

Definition bob : db.User :=
  db.mkUser 2 "Bob" (pgtype.mkDate (Date 2000 6 16) true) 0 0.

(** A store of [total] users whose current page is [alice; bob]. *)
Definition cannedOk (total : Z) : Canned :=
  mkCanned (alice, None) ([alice; bob], None) (total, None) None.

(** A store in which no user has the requested id. *)
Definition cannedNoRows : Canned :=
  mkCanned (db.User_zero, Some ErrNoRows) ([], None) (0, None) None.

(** ** The generated query layer and the repository over it *)

Module sqlc.

(** The parameter structs of the generated queries, with the fields the
    repository fills in. *)
Record CreateUserParams : Type := mkCreateUserParams {
  c_Name : string;
  c_Dob : pgtype.Date
}.

Record ListUsersParams : Type := mkListUsersParams {
  Limit : Z;                (* [int32] *)
  Offset : Z                (* [int32] *)
}.

Record UpdateUserParams : Type := mkUpdateUserParams {
  u_ID : Z;                 (* [int32] *)
  u_Name : string;
  u_Dob : pgtype.Date
}.

(** The six methods of [db.Queries] the repository calls, over a store. *)
Class Queries (S : Type) : Type := {
  CreateUser : CreateUserParams -> S -> (db.User * option error) * S;
  GetUserByID : Z -> S -> (db.User * option error) * S;
  ListUsers : ListUsersParams -> S -> (list db.User * option error) * S;
  CountUsers : S -> (Z * option error) * S;
  UpdateUser : UpdateUserParams -> S -> (db.User * option error) * S;
  DeleteUser : Z -> S -> option error * S
}.

End sqlc.

Module repository.

(** [parsePGDate]: the error of [time.Parse] is dropped, so a text that
    does not parse leaves the zero time; the date is marked valid either
    way. *)
Definition parsePGDate (d : string) : pgtype.Date :=
  let t := match time.Parse d with Some t => t | None => Time_zero end in
  pgtype.mkDate t true.

(** [userRepository]: every method hands its arguments to the query of
    the same name. *)
Definition userRepository {S : Type} (queries : sqlc.Queries S)
  : UserRepository S := {|
  repo_Create := fun name dob =>
    sqlc.CreateUser (sqlc.mkCreateUserParams name (parsePGDate dob));
  repo_GetByID := fun id => sqlc.GetUserByID id;
  repo_List := fun limit offset =>
    sqlc.ListUsers (sqlc.mkListUsersParams limit offset);
  repo_Count := sqlc.CountUsers;
  repo_Update := fun id name dob =>
    sqlc.UpdateUser (sqlc.mkUpdateUserParams id name (parsePGDate dob));
  repo_Delete := fun id => sqlc.DeleteUser id
|}.

End repository.

(** ** Go's [strconv.Atoi] *)

Module strconv.

Inductive NumError : Type := ErrSyntax | ErrRange.

(** The loop of the fast path: [n = n*10 + int(ch - '0')], a syntax error
    at the first byte that is not a digit. *)
Fixpoint atoi_digits (n : Z) (s : string) : option Z :=
  match s with
  | EmptyString => Some n
  | String ch rest =>
      match time.digit_val ch with
      | None => None
      | Some d => atoi_digits (GoInt.add (GoInt.mul n 10) d) rest
      end
  end.

Definition maxUint64 : Z := 2 ^ 64 - 1.

(** The loop of [ParseUint(s, 10, 64)] on [uint64]: a byte that is not a
    digit is a syntax error with value 0; leaving the range is a range
    error with value [maxUint64], reported at the digit where it
    happens. *)
Fixpoint parseUint_loop (n : Z) (s : string) : Z * option NumError :=
  match s with
  | EmptyString => (n, None)
  | String c rest =>
      match time.digit_val c with
      | None => (0, Some ErrSyntax)
      | Some d =>
          if maxUint64 / 10 + 1 <=? n then (maxUint64, Some ErrRange)
          else
            let n := (n * 10) mod 2 ^ 64 in
            let n1 := (n + d) mod 2 ^ 64 in
            if (n1 <? n) || (maxUint64 <? n1) then (maxUint64, Some ErrRange)
            else parseUint_loop n1 rest
      end
  end.

Definition ParseUint (s : string) : Z * option NumError :=
  match s with
  | EmptyString => (0, Some ErrSyntax)
  | _ => parseUint_loop 0 s
  end.

(** [ParseInt(s, 10, 0)]: an optional sign, then [ParseUint]; a value out
    of [int64] is clamped and reported as a range error. *)
Definition ParseInt (s : string) : Z * option NumError :=
  match s with
  | EmptyString => (0, Some ErrSyntax)
  | String c0 rest =>
      let '(neg, s') :=
        if Ascii.eqb c0 "+" then (false, rest)
        else if Ascii.eqb c0 "-" then (true, rest)
        else (false, s) in
      let '(un, err) := ParseUint s' in
      match err with
      | Some ErrSyntax => (0, err)
      | _ =>
          let cutoff := 2 ^ 63 in
          if negb neg && (cutoff <=? un) then (cutoff - 1, Some ErrRange)
          else if neg && (cutoff <? un) then (- cutoff, Some ErrRange)
          else
            let n := GoInt.int64 un in
            (if neg then GoInt.int64 (- n) else n, None)
      end
  end.

(** [Atoi(s)]: the value and the error.  Texts of 1 to 18 bytes take the
    fast path, all others go through [ParseInt]. *)
Definition Atoi (s : string) : Z * option NumError :=
  let sLen := String.length s in
  if (0 <? sLen)%nat && (sLen <? 19)%nat then
    match s with
    | EmptyString => (0, Some ErrSyntax)
    | String c0 rest =>
        let signed := Ascii.eqb c0 "-" || Ascii.eqb c0 "+" in
        let s' := if signed then rest else s in
        if signed && (String.length s' <? 1)%nat then (0, Some ErrSyntax)
        else
          match atoi_digits 0 s' with
          | None => (0, Some ErrSyntax)
          | Some n => (if Ascii.eqb c0 "-" then GoInt.int (- n) else n, None)
          end
    end
  else
    let '(i64, err) := ParseInt s in (GoInt.int i64, err).

End strconv.

(** ** Go's [utf8.RuneCountInString] *)

Module utf8.

Definition byte (c : ascii) : Z := Z.of_N (N_of_ascii c).

(** The table [first] with [acceptRanges]: for a leading byte, the length
    of the sequence it starts and the range its second byte must lie in;
    [None] for a byte that starts no sequence of two or more bytes. *)
Definition first (c : Z) : option (nat * Z * Z) :=
  if (194 <=? c) && (c <=? 223) then Some (2%nat, 128, 191)
  else if c =? 224 then Some (3%nat, 160, 191)
  else if (225 <=? c) && (c <=? 236) then Some (3%nat, 128, 191)
  else if c =? 237 then Some (3%nat, 128, 159)
  else if (238 <=? c) && (c <=? 239) then Some (3%nat, 128, 191)
  else if c =? 240 then Some (4%nat, 144, 191)
  else if (241 <=? c) && (c <=? 243) then Some (4%nat, 128, 191)
  else if c =? 244 then Some (4%nat, 128, 143)
  else None.

Definition continuation (c : Z) : bool := (128 <=? c) && (c <=? 191).

(** How many bytes the rune starting with [c], followed by [rest], takes:
    a well-formed sequence takes its length, anything else one byte. *)
Definition size_at (c : ascii) (rest : string) : nat :=
  if byte c <? 128 then 1%nat
  else
    match first (byte c) with
    | None => 1%nat
    | Some (size, lo, hi) =>
        if (String.length rest <? size - 1)%nat then 1%nat
        else
          match rest with
          | String c1 rest1 =>
              if (byte c1 <? lo) || (hi <? byte c1) then 1%nat
              else if (size =? 2)%nat then 2%nat
              else
                match rest1 with
                | String c2 rest2 =>
                    if negb (continuation (byte c2)) then 1%nat
                    else if (size =? 3)%nat then 3%nat
                    else
                      match rest2 with
                      | String c3 _ =>
                          if negb (continuation (byte c3)) then 1%nat
                          else 4%nat
                      | EmptyString => 1%nat
                      end
                | EmptyString => 1%nat
                end
          | EmptyString => 1%nat
          end
    end.

(** The counting loop: [skip] is the number of bytes of the current rune
    still to pass over. *)
Fixpoint count_from (skip : nat) (s : string) : Z :=
  match s with
  | EmptyString => 0
  | String c rest =>
      match skip with
      | S k => count_from k rest
      | O => 1 + count_from (size_at c rest - 1) rest
      end
  end.

Definition RuneCountInString (s : string) : Z := count_from 0 s.

End utf8.

(** ** Request validation *)

Module validator.

(** [required] on a string: not the zero value. *)
Definition required (s : string) : bool := negb (String.eqb s "").

(** [min=n] and [max=n] on a string count runes. *)
Definition min (n : Z) (s : string) : bool :=
  n <=? utf8.RuneCountInString s.

Definition max (n : Z) (s : string) : bool :=
  utf8.RuneCountInString s <=? n.

(** [validate.Struct(req)] for the tags of the two request structs:
    [true] when no error is returned. *)
Definition Struct (name dob : string) : bool :=
  required name && min 2 name && max 100 name && required dob.

End validator.

(** ** The HTTP handlers *)

Module handler.

(** What a handler sends: a status and a JSON body.  The body of a
    failed validation is [{"error": "Validation failed", "details": ...}]
    with the validator's message for that request; it is kept as the
    request's two fields.  Log entries are not part of the response and
    are left out. *)
Inductive Body : Type :=
| ErrorBody (text : string)
| ValidationFailed (name dob : string)
| UserBody (u : models.UserResponse)
| ListBody (l : models.UsersListResponse)
| NoBody.

Record Response : Type := mkResponse { Status : Z; body : Body }.

Definition StatusOK : Z := 200.
Definition StatusCreated : Z := 201.
Definition StatusNoContent : Z := 204.
Definition StatusBadRequest : Z := 400.
Definition StatusNotFound : Z := 404.
Definition StatusInternalServerError : Z := 500.

(** [err.Error()] *)
Definition Error (e : error) : string :=
  match e with
  | errors_New text => text
  | ErrNoRows => "no rows in result set"
  | ErrStore text => text
  end.

(** [c.Query(key, defaultValue)]: the default stands in for a missing or
    empty value. *)
Definition Query (value defaultValue : string) : string :=
  if String.eqb value "" then defaultValue else value.

(** [CreateUser].  [parsed] is what [c.BodyParser(&req)] yields: [None]
    for an error. *)
Definition CreateUser (parsed : option models.CreateUserRequest)
  : Svc Response :=
  match parsed with
  | None => Ret (mkResponse StatusBadRequest (ErrorBody "Invalid request body"))
  | Some req =>
      let name := models.req_Name req in
      let dob := models.req_DOB req in
      if negb (validator.Struct name dob) then
        Ret (mkResponse StatusBadRequest (ValidationFailed name dob))
      else
        '(user, err) <- service.CreateUser name dob ;;
        match err with
        | Some e => Ret (mkResponse StatusBadRequest (ErrorBody (Error e)))
        | None =>
            Ret (mkResponse StatusCreated
                   (UserBody
                      (models.mkUserResponse (db.ID user) (db.Name user)
                         (time.Format (pgtype.Time (db.Dob user))) None)))
        end
  end.

(** [GetUser], with the path parameter [id] as [idStr]. *)
Definition GetUser (now : Time) (idStr : string) : Svc Response :=
  let '(id, err) := strconv.Atoi idStr in
  match err with
  | Some _ => Ret (mkResponse StatusBadRequest (ErrorBody "Invalid user ID"))
  | None =>
      '(user, err) <- service.GetUserByID (GoInt.int32 id) ;;
      match err with
      | Some _ => Ret (mkResponse StatusNotFound (ErrorBody "User not found"))
      | None =>
          let age := service.CalculateAge now (pgtype.Time (db.Dob user)) in
          Ret (mkResponse StatusOK
                 (UserBody
                    (models.mkUserResponse (db.ID user) (db.Name user)
                       (time.Format (pgtype.Time (db.Dob user)))
                       (Some age))))
      end
  end.

(** [ListUsers], with the query values of [page] and [limit] (empty when
    absent).  The errors of [Atoi] are dropped. *)
Definition ListUsers (now : Time) (pageQ limitQ : string) : Svc Response :=
  let page := fst (strconv.Atoi (Query pageQ "1")) in
  let limit := fst (strconv.Atoi (Query limitQ "10")) in
  '(response, err) <- service.ListUsers now page limit ;;
  match err with
  | Some _ =>
      Ret (mkResponse StatusInternalServerError
             (ErrorBody "Failed to retrieve users"))
  | None => Ret (mkResponse StatusOK (ListBody response))
  end.

Definition UpdateUser (idStr : string)
  (parsed : option models.UpdateUserRequest) : Svc Response :=
  let '(id, err) := strconv.Atoi idStr in
  match err with
  | Some _ => Ret (mkResponse StatusBadRequest (ErrorBody "Invalid user ID"))
  | None =>
      match parsed with
      | None =>
          Ret (mkResponse StatusBadRequest (ErrorBody "Invalid request body"))
      | Some req =>
          let name := models.upd_Name req in
          let dob := models.upd_DOB req in
          if negb (validator.Struct name dob) then
            Ret (mkResponse StatusBadRequest (ValidationFailed name dob))
          else
            '(user, err) <- service.UpdateUser (GoInt.int32 id) name dob ;;
            match err with
            | Some e => Ret (mkResponse StatusBadRequest (ErrorBody (Error e)))
            | None =>
                Ret (mkResponse StatusOK
                       (UserBody
                          (models.mkUserResponse (db.ID user) (db.Name user)
                             (time.Format (pgtype.Time (db.Dob user)))
                             None)))
            end
      end
  end.

Definition DeleteUser (idStr : string) : Svc Response :=
  let '(id, err) := strconv.Atoi idStr in
  match err with
  | Some _ => Ret (mkResponse StatusBadRequest (ErrorBody "Invalid user ID"))
  | None =>
      err <- service.DeleteUser (GoInt.int32 id) ;;
      match err with
      | Some _ => Ret (mkResponse StatusNotFound (ErrorBody "User not found"))
      | None => Ret (mkResponse StatusNoContent NoBody)
      end
  end.

End handler.

(** ** Vocabulary of the properties *)

(** The current (month, day) comes before the birth (month, day) in
    lexicographic order. *)
Definition md_before (now dob : Time) : Prop :=
  Month now < Month dob \/ (Month now = Month dob /\ Day now < Day dob).

(** The calendar date [a] comes strictly before [b]. *)
Definition date_before (a b : Time) : Prop :=
  Year a < Year b \/ (Year a = Year b /\ md_before a b).

(** The two errors the service builds itself when an input is refused. *)
Definition ValidationError (e : error) : Prop :=
  e = errors_New "name cannot be empty"
  \/ e = errors_New "invalid date format, use YYYY-MM-DD".

(** A method that refuses its input: it returns the zero user and a
    validation error, and that is all it does. *)
Definition fails_validation (p : Svc (db.User * option error)) : Prop :=
  exists e, ValidationError e /\ p = Ret (db.User_zero, Some e).

(** The normalization of [ListUsers], as the specification words it. *)
Definition normal_page (page : Z) : Z := if page <? 1 then 1 else page.

Definition normal_limit (limit : Z) : Z :=
  if limit <? 1 then 10 else if 100 <? limit then 100 else limit.

Definition normal_offset (page limit : Z) : Z :=
  (normal_page page - 1) * normal_limit limit.

(** The offset as the source computes it on [int], before it is narrowed
    to [int32] for the repository. *)
Definition offset_int (page limit : Z) : Z :=
  GoInt.mul (GoInt.sub (normal_page page) 1) (normal_limit limit).

(** Ceiling division on unbounded integers. *)
Definition ceil_div (total limit : Z) : Z := (total + limit - 1) / limit.

(** The text [y1 y2 y3 y4 - m1 m2 - d1 d2] built from eight digits. *)
Definition digit_char (d : Z) : ascii := ascii_of_N (Z.to_N (48 + d)).

Definition is_digit (d : Z) : Prop := 0 <= d <= 9.

Definition ymd_text (y1 y2 y3 y4 m1 m2 d1 d2 : Z) : string :=
  String (digit_char y1) (String (digit_char y2) (String (digit_char y3)
    (String (digit_char y4) (String "-" (String (digit_char m1)
      (String (digit_char m2) (String "-" (String (digit_char d1)
        (String (digit_char d2) EmptyString))))))))).


(** The eight digits spell a day that exists in the calendar. *)
Definition calendar_date (y1 y2 y3 y4 m1 m2 d1 d2 : Z) : Prop :=
  let y := 1000 * y1 + 100 * y2 + 10 * y3 + y4 in
  let m := m1 * 10 + m2 in
  let d := d1 * 10 + d2 in
  1 <= m <= 12 /\ 1 <= d <= time.daysIn m y.

(** A text of the shape YYYY-MM-DD that names a calendar day. *)
Definition date_text (text : string) : Prop :=
  exists y1 y2 y3 y4 m1 m2 d1 d2 : Z,
    is_digit y1 /\ is_digit y2 /\ is_digit y3 /\ is_digit y4
    /\ is_digit m1 /\ is_digit m2 /\ is_digit d1 /\ is_digit d2
    /\ text = ymd_text y1 y2 y3 y4 m1 m2 d1 d2
    /\ calendar_date y1 y2 y3 y4 m1 m2 d1 d2.

(** A calendar day of a year the layout can print in four digits. *)
Definition four_digit_date (t : Time) : Prop :=
  0 <= Year t <= 9999
  /\ 1 <= Month t <= 12
  /\ 1 <= Day t <= time.daysIn (Month t) (Year t).

(** A query layer that records every query it is asked to run, with its
    parameters, and answers with a row built from them. *)
Inductive Query : Type :=
| QCreateUser (arg : sqlc.CreateUserParams)
| QGetUserByID (id : Z)
| QListUsers (arg : sqlc.ListUsersParams)
| QCountUsers
| QUpdateUser (arg : sqlc.UpdateUserParams)
| QDeleteUser (id : Z).

Definition recordingQueries : sqlc.Queries (list Query) := {|
  sqlc.CreateUser := fun arg log =>
    ((db.mkUser 1 (sqlc.c_Name arg) (sqlc.c_Dob arg) 0 0, None),
     (log ++ [QCreateUser arg])%list);
  sqlc.GetUserByID := fun id log =>
    ((db.User_zero, Some ErrNoRows), (log ++ [QGetUserByID id])%list);
  sqlc.ListUsers := fun arg log =>
    (([], None), (log ++ [QListUsers arg])%list);
  sqlc.CountUsers := fun log => ((0, None), (log ++ [QCountUsers])%list);
  sqlc.UpdateUser := fun arg log =>
    ((db.mkUser (sqlc.u_ID arg) (sqlc.u_Name arg) (sqlc.u_Dob arg) 0 0, None),
     (log ++ [QUpdateUser arg])%list);
  sqlc.DeleteUser := fun id log => (None, (log ++ [QDeleteUser id])%list)
|}.

(** Every byte of the text is below 128. *)
Fixpoint ascii_only (s : string) : bool :=
  match s with
  | EmptyString => true
  | String c rest => (utf8.byte c <? 128) && ascii_only rest
  end.

(** ** Properties of the fixed-width arithmetic *)

Section GoIntFacts.

Lemma wrap64_small (z : Z) : GoInt.in_range 64 z -> GoInt.wrap 64 z = z.
Proof.
  unfold GoInt.in_range, GoInt.wrap. intros Hz.
  change (2 ^ (64 - 1)) with 9223372036854775808 in *.
  change (2 ^ 64) with 18446744073709551616.
  rewrite Z.mod_small by lia. lia.
Qed.

Lemma wrap32_small (z : Z) : GoInt.in_range 32 z -> GoInt.wrap 32 z = z.
Proof.
  unfold GoInt.in_range, GoInt.wrap. intros Hz.
  change (2 ^ (32 - 1)) with 2147483648 in *.
  change (2 ^ 32) with 4294967296.
  rewrite Z.mod_small by lia. lia.
Qed.

Lemma wrap32_range (z : Z) : GoInt.in_range 32 (GoInt.wrap 32 z).
Proof.
  unfold GoInt.in_range, GoInt.wrap.
  change (2 ^ (32 - 1)) with 2147483648.
  change (2 ^ 32) with 4294967296.
  pose proof (Z.mod_pos_bound (z + 2147483648) 4294967296). lia.
Qed.

Lemma wrap64_range (z : Z) : GoInt.in_range 64 (GoInt.wrap 64 z).
Proof.
  unfold GoInt.in_range, GoInt.wrap.
  change (2 ^ (64 - 1)) with 9223372036854775808.
  change (2 ^ 64) with 18446744073709551616.
  pose proof (Z.mod_pos_bound (z + 9223372036854775808)
                18446744073709551616). lia.
Qed.

(** Wrapping changes a number by a multiple of the modulus. *)
Lemma wrap64_cong (z : Z) : exists q, GoInt.wrap 64 z = z + q * 2 ^ 64.
Proof.
  unfold GoInt.wrap.
  change (2 ^ (64 - 1)) with 9223372036854775808.
  change (2 ^ 64) with 18446744073709551616.
  exists (- ((z + 9223372036854775808) / 18446744073709551616)).
  pose proof (Z.div_mod (z + 9223372036854775808) 18446744073709551616).
  lia.
Qed.

Lemma wrap32_cong (z : Z) : exists q, GoInt.wrap 32 z = z + q * 2 ^ 32.
Proof.
  unfold GoInt.wrap.
  change (2 ^ (32 - 1)) with 2147483648.
  change (2 ^ 32) with 4294967296.
  exists (- ((z + 2147483648) / 4294967296)).
  pose proof (Z.div_mod (z + 2147483648) 4294967296).
  lia.
Qed.

(** Narrowing to 32 bits forgets an earlier wrap to 64 bits. *)
Lemma int32_int_cong (z : Z) :
  exists q, GoInt.int32 (GoInt.int z) = z + q * 2 ^ 32.
Proof.
  unfold GoInt.int32, GoInt.int.
  destruct (wrap64_cong z) as [q1 H1].
  destruct (wrap32_cong (GoInt.wrap 64 z)) as [q2 H2].
  exists (q2 + q1 * 2 ^ 32). rewrite H2, H1.
  change (2 ^ 64) with (2 ^ 32 * 2 ^ 32). ring.
Qed.

End GoIntFacts.

(** ** Age derivation *)

Section Age.

Local Ltac in64 :=
  unfold GoInt.in_range;
  change (2 ^ (64 - 1)) with 9223372036854775808; lia.

Local Ltac unwrap now dob :=
  unfold GoInt.sub;
  rewrite (wrap64_small (Year now - Year dob)) by in64;
  rewrite ?wrap64_small by in64.

Lemma md_before_dec (now dob : Time) :
  ((Month now <? Month dob)
   || ((Month now =? Month dob) && (Day now <? Day dob))) = true
  <-> md_before now dob.
Proof.
  unfold md_before.
  rewrite orb_true_iff, andb_true_iff, !Z.ltb_lt, Z.eqb_eq. tauto.
Qed.

Lemma CalculateAge_before (now dob : Time) :
  representable now -> representable dob -> md_before now dob ->
  service.CalculateAge now dob = Year now - Year dob - 1.
Proof.
  unfold representable. intros Hn Hd Hb.
  change (2 ^ 62) with 4611686018427387904 in *.
  unfold service.CalculateAge.
  apply md_before_dec in Hb. rewrite Hb. unwrap now dob. reflexivity.
Qed.

Lemma CalculateAge_not_before (now dob : Time) :
  representable now -> representable dob -> ~ md_before now dob ->
  service.CalculateAge now dob = Year now - Year dob.
Proof.
  unfold representable. intros Hn Hd Hb.
  change (2 ^ 62) with 4611686018427387904 in *.
  unfold service.CalculateAge.
  destruct ((Month now <? Month dob)
            || ((Month now =? Month dob) && (Day now <? Day dob))) eqn:E.
  - apply md_before_dec in E. contradiction.
  - unwrap now dob. reflexivity.
Qed.

Lemma CalculateAge_cases (now dob : Time) :
  representable now -> representable dob ->
  service.CalculateAge now dob = Year now - Year dob - 1
  \/ service.CalculateAge now dob = Year now - Year dob.
Proof.
  intros Hn Hd.
  destruct ((Month now <? Month dob)
            || ((Month now =? Month dob) && (Day now <? Day dob))) eqn:E.
  - left. apply CalculateAge_before; auto. now apply md_before_dec.
  - right. apply CalculateAge_not_before; auto.
    intros Hb. apply md_before_dec in Hb. congruence.
Qed.

End Age.

(** C1. At a current date [now], [CalculateAge] returns
    [currentYear - birthYear], less one exactly when the current
    (month, day) is lexicographically before the birth (month, day); at
    2024-06-15 the birth dates 2000-06-15, 2000-06-16, 2000-06-14 and
    2024-06-15 give 24, 23, 24 and 0. *)
Theorem CalculateAge_spec :
  (forall now dob : Time,
      representable now -> representable dob ->
      (md_before now dob ->
       service.CalculateAge now dob = Year now - Year dob - 1)
      /\ (~ md_before now dob ->
          service.CalculateAge now dob = Year now - Year dob))
  /\ service.CalculateAge (Date 2024 6 15) (Date 2000 6 15) = 24
  /\ service.CalculateAge (Date 2024 6 15) (Date 2000 6 16) = 23
  /\ service.CalculateAge (Date 2024 6 15) (Date 2000 6 14) = 24
  /\ service.CalculateAge (Date 2024 6 15) (Date 2024 6 15) = 0.
Proof.
  split; [| repeat split; reflexivity].
  intros now dob Hn Hd. split; intro Hb.
  - now apply CalculateAge_before.
  - now apply CalculateAge_not_before.
Qed.

Lemma CalculateAge_spec_witness :
  representable (Date 2023 2 28) /\ representable (Date 2000 2 29)
  /\ md_before (Date 2023 2 28) (Date 2000 2 29)
  /\ service.CalculateAge (Date 2023 2 28) (Date 2000 2 29) = 2023 - 2000 - 1.
Proof.
  assert (Hn : representable (Date 2023 2 28))
    by (unfold representable; simpl; lia).
  assert (Hd : representable (Date 2000 2 29))
    by (unfold representable; simpl; lia).
  assert (Hb : md_before (Date 2023 2 28) (Date 2000 2 29))
    by (unfold md_before; simpl; lia).
  split; [exact Hn | split; [exact Hd | split; [exact Hb |]]].
  exact (proj1 (proj1 CalculateAge_spec _ _ Hn Hd) Hb).
Defined.

(** ** Parsing dates *)

Section ParseFacts.

Lemma digit_val_char (d : Z) :
  is_digit d -> time.digit_val (digit_char d) = Some d.
Proof.
  unfold is_digit. intros Hd.
  assert (H : d = 0 \/ d = 1 \/ d = 2 \/ d = 3 \/ d = 4 \/ d = 5
              \/ d = 6 \/ d = 7 \/ d = 8 \/ d = 9) by lia.
  repeat (destruct H as [-> | H]; [reflexivity |]). now subst d.
Qed.

Lemma leadingInt_digit (x d : Z) (rest : string) :
  is_digit d -> 0 <= x <= 1000 ->
  time.leadingInt_from x (String (digit_char d) rest)
  = time.leadingInt_from (x * 10 + d) rest.
Proof.
  intros Hd Hx. cbn [time.leadingInt_from].
  rewrite (digit_val_char d Hd).
  change (2 ^ 63 / 10) with 922337203685477580.
  change (2 ^ 63) with 9223372036854775808.
  unfold is_digit in Hd.
  destruct (x >? 922337203685477580) eqn:E1;
    [apply Z.gtb_lt in E1; lia |].
  cbv zeta.
  destruct (x * 10 + d >? 9223372036854775808) eqn:E2;
    [apply Z.gtb_lt in E2; lia |].
  reflexivity.
Qed.

(** Four digits read as the number they spell. *)
Lemma atoi_four_digits (y1 y2 y3 y4 : Z) :
  is_digit y1 -> is_digit y2 -> is_digit y3 -> is_digit y4 ->
  time.atoi (String (digit_char y1) (String (digit_char y2)
              (String (digit_char y3) (String (digit_char y4) ""))))
  = Some (1000 * y1 + 100 * y2 + 10 * y3 + y4).
Proof.
  intros H1 H2 H3 H4.
  assert (Hs : forall rest,
             match String (digit_char y1) rest with
             | String "-" r => (true, r)
             | String "+" r => (false, r)
             | _ => (false, String (digit_char y1) rest)
             end = (false, String (digit_char y1) rest)).
  { intros rest. unfold is_digit in H1.
    assert (H : y1 = 0 \/ y1 = 1 \/ y1 = 2 \/ y1 = 3 \/ y1 = 4 \/ y1 = 5
                \/ y1 = 6 \/ y1 = 7 \/ y1 = 8 \/ y1 = 9) by lia.
    repeat (destruct H as [-> | H]; [reflexivity |]). now subst y1. }
  unfold time.atoi. rewrite Hs. unfold time.leadingInt.
  unfold is_digit in *.
  rewrite !leadingInt_digit by (unfold is_digit; lia).
  cbn [time.leadingInt_from]. unfold GoInt.int.
  rewrite wrap64_small
    by (unfold GoInt.in_range;
        change (2 ^ (64 - 1)) with 9223372036854775808; lia).
  f_equal. lia.
Qed.

Lemma getnum_two_digits (a b : Z) (rest : string) :
  is_digit a -> is_digit b ->
  time.getnum (String (digit_char a) (String (digit_char b) rest)) true
  = Some (a * 10 + b, rest).
Proof.
  intros Ha Hb. unfold time.getnum.
  now rewrite (digit_val_char a Ha), (digit_val_char b Hb).
Qed.

(** What [time.Parse] does with a text of the shape YYYY-MM-DD: it
    accepts exactly the real calendar dates. *)
Lemma Parse_ymd_text (y1 y2 y3 y4 m1 m2 d1 d2 : Z) :
  is_digit y1 -> is_digit y2 -> is_digit y3 -> is_digit y4 ->
  is_digit m1 -> is_digit m2 -> is_digit d1 -> is_digit d2 ->
  let y := 1000 * y1 + 100 * y2 + 10 * y3 + y4 in
  let m := m1 * 10 + m2 in
  let d := d1 * 10 + d2 in
  time.Parse (ymd_text y1 y2 y3 y4 m1 m2 d1 d2)
  = if (1 <=? m) && (m <=? 12) && (1 <=? d) && (d <=? time.daysIn m y)
    then Some (Date y m d) else None.
Proof.
  intros Hy1 Hy2 Hy3 Hy4 Hm1 Hm2 Hd1 Hd2 y m d.
  unfold time.Parse, ymd_text.
  cbn [String.length Nat.ltb Nat.leb orb].
  unfold time.isDigit. cbn [String.get].
  rewrite (digit_val_char y1 Hy1). cbn [negb].
  cbn [substring Nat.sub String.length].
  rewrite (atoi_four_digits y1 y2 y3 y4 Hy1 Hy2 Hy3 Hy4).
  cbn [time.skip1]. change (Ascii.eqb "-" "-") with true. cbv iota.
  rewrite (getnum_two_digits m1 m2 _ Hm1 Hm2).
  fold y. fold m.
  destruct ((m <=? 0) || (12 <? m)) eqn:Em.
  - replace ((1 <=? m) && (m <=? 12)) with false; [reflexivity |].
    apply orb_true_iff in Em. symmetry. apply andb_false_iff.
    rewrite Z.leb_gt, Z.leb_gt.
    destruct Em as [Em | Em]; [apply Z.leb_le in Em | apply Z.ltb_lt in Em];
      lia.
  - apply orb_false_iff in Em. destruct Em as [Em1 Em2].
    apply Z.leb_gt in Em1. apply Z.ltb_ge in Em2.
    replace ((1 <=? m) && (m <=? 12)) with true
      by (symmetry; apply andb_true_iff; rewrite !Z.leb_le; lia).
    cbn [time.skip1]. change (Ascii.eqb "-" "-") with true. cbv iota.
    rewrite (getnum_two_digits d1 d2 _ Hd1 Hd2). fold d.
    cbn [String.length Nat.eqb negb andb].
    destruct ((d <? 1) || (d >? time.daysIn m y)) eqn:Ed.
    + replace ((1 <=? d) && (d <=? time.daysIn m y)) with false;
        [reflexivity |].
      apply orb_true_iff in Ed. symmetry. apply andb_false_iff.
      rewrite Z.leb_gt, Z.leb_gt.
      destruct Ed as [Ed | Ed]; [apply Z.ltb_lt in Ed | apply Z.gtb_lt in Ed];
        lia.
    + apply orb_false_iff in Ed. destruct Ed as [Ed1 Ed2].
      apply Z.ltb_ge in Ed1.
      assert (Ed3 : d <= time.daysIn m y).
      { destruct (Z.gtb_spec d (time.daysIn m y)); [discriminate | lia]. }
      replace ((1 <=? d) && (d <=? time.daysIn m y)) with true
        by (symmetry; apply andb_true_iff; rewrite !Z.leb_le; lia).
      reflexivity.
Qed.

Lemma digit_val_range (c : ascii) (d : Z) :
  time.digit_val c = Some d -> is_digit d.
Proof.
  unfold time.digit_val, is_digit. cbv zeta.
  destruct ((48 <=? Z.of_N (N_of_ascii c))
            && (Z.of_N (N_of_ascii c) <=? 57)) eqn:E; [| discriminate].
  apply andb_true_iff in E. destruct E as [E1 E2].
  apply Z.leb_le in E1, E2. intros [= <-]. lia.
Qed.

(** A text that starts with a digit carries no sign. *)
Lemma atoi_digit_first (c : ascii) (d : Z) (r : string) :
  time.digit_val c = Some d ->
  time.atoi (String c r)
  = match time.leadingInt (String c r) with
    | Some (q, EmptyString) => Some (GoInt.int q)
    | _ => None
    end.
Proof.
  intros H.
  destruct c as [[] [] [] [] [] [] [] []]; cbv in H; try discriminate H;
    reflexivity.
Qed.

(** Digits read from the left: [n] digits after [x] give a number that
    starts with [x]. *)
Lemma leadingInt_from_bound (s : string) :
  forall x q : Z,
    0 <= x ->
    time.leadingInt_from x s = Some (q, "") ->
    x * 10 ^ Z.of_nat (String.length s) <= q
    < (x + 1) * 10 ^ Z.of_nat (String.length s).
Proof.
  induction s as [| c rest IH]; intros x q Hx H.
  - cbn in H. injection H as <-. cbn. lia.
  - cbn [time.leadingInt_from] in H.
    destruct (time.digit_val c) as [d |] eqn:Ed; [| discriminate H].
    apply digit_val_range in Ed. unfold is_digit in Ed.
    destruct (x >? 2 ^ 63 / 10); [discriminate H |].
    cbv zeta in H.
    destruct (x * 10 + d >? 2 ^ 63); [discriminate H |].
    apply IH in H; [| lia].
    cbn [String.length]. rewrite Nat2Z.inj_succ, Z.pow_succ_r by lia.
    assert (Hpow : 0 < 10 ^ Z.of_nat (String.length rest))
      by (apply Z.pow_pos_nonneg; lia).
    nia.
Qed.

Lemma substring_all (s : string) : substring 0 (String.length s) s = s.
Proof. induction s as [| c s IH]; cbn; [reflexivity | now rewrite IH]. Qed.

Lemma daysIn_le_31 (m y : Z) : time.daysIn m y <= 31.
Proof.
  unfold time.daysIn.
  destruct ((m =? 2) && time.isLeap y); [lia |].
  destruct m as [| p | p]; try lia.
  do 4 (destruct p as [p | p |]; try lia).
Qed.

(** What [time.Parse] accepts is a real calendar day of a year from 0 to
    9999. *)
Lemma Parse_sound (text : string) (t : Time) :
  time.Parse text = Some t ->
  0 <= Year t <= 9999
  /\ 1 <= Month t <= 12
  /\ 1 <= Day t <= time.daysIn (Month t) (Year t).
Proof.
  unfold time.Parse. intros H.
  destruct ((String.length text <? 4)%nat || negb (time.isDigit text 0))
    eqn:E0; [discriminate H |].
  apply orb_false_iff in E0. destruct E0 as [Elen Edig].
  apply Nat.ltb_ge in Elen. apply negb_false_iff in Edig.
  destruct text as [| c1 [| c2 [| c3 [| c4 rest]]]]; cbn in Elen; try lia.
  unfold time.isDigit in Edig. cbn [String.get] in Edig.
  destruct (time.digit_val c1) as [d1 |] eqn:Ed1; [| discriminate Edig].
  cbn [substring String.length Nat.sub] in H.
  rewrite Nat.sub_0_r, substring_all in H.
  replace (substring 0 0 rest) with EmptyString in H
    by (destruct rest; reflexivity).
  rewrite (atoi_digit_first c1 d1 _ Ed1) in H.
  unfold time.leadingInt in H.
  destruct (time.leadingInt_from 0 _) as [[q [| c r]] |] eqn:Eq;
    try discriminate H.
  apply leadingInt_from_bound in Eq; [| lia].
  cbn [String.length] in Eq.
  change (10 ^ Z.of_nat 4) with 10000 in Eq.
  unfold GoInt.int in H.
  rewrite (wrap64_small q) in H
    by (unfold GoInt.in_range;
        change (2 ^ (64 - 1)) with 9223372036854775808; lia).
  destruct (time.skip1 rest "-") as [v1 |]; [| discriminate H].
  destruct (time.getnum v1 true) as [[month v2] |]; [| discriminate H].
  destruct ((month <=? 0) || (12 <? month)) eqn:Em; [discriminate H |].
  destruct (time.skip1 v2 "-") as [v3 |]; [| discriminate H].
  destruct (time.getnum v3 true) as [[day v4] |]; [| discriminate H].
  destruct (negb (String.length v4 =? 0)%nat); [discriminate H |].
  destruct ((day <? 1) || (day >? time.daysIn month q)) eqn:Ed;
    [discriminate H |].
  injection H as <-. cbn [Year Month Day].
  apply orb_false_iff in Em. destruct Em as [Em1 Em2].
  apply orb_false_iff in Ed. destruct Ed as [Ed1' Ed2].
  apply Z.leb_gt in Em1. apply Z.ltb_ge in Em2. apply Z.ltb_ge in Ed1'.
  assert (Ed3 : day <= time.daysIn month q).
  { destruct (Z.gtb_spec day (time.daysIn month q)); [discriminate | lia]. }
  lia.
Qed.

Lemma Parse_representable (text : string) (t : Time) :
  time.Parse text = Some t -> representable t.
Proof.
  intros H. apply Parse_sound in H. unfold representable.
  change (2 ^ 62) with 4611686018427387904. lia.
Qed.

Example Parse_leap_day : time.Parse "2000-02-29" = Some (Date 2000 2 29).
Proof. reflexivity. Qed.

Example Parse_no_leap_day : time.Parse "1900-02-29" = None.
Proof. reflexivity. Qed.

Example Parse_one_digit_month : time.Parse "2000-2-29" = None.
Proof. reflexivity. Qed.

Example Parse_extra_text : time.Parse "2000-12-311" = None.
Proof. reflexivity. Qed.

Example Format_pads : time.Format (Date 987 3 9) = "0987-03-09".
Proof. reflexivity. Qed.

End ParseFacts.

(** ** Validation in [CreateUser] and [UpdateUser] *)

Section Validation.

Lemma name_eqb_empty (name : string) :
  String.eqb name "" = true <-> name = "".
Proof. apply String.eqb_eq. Qed.

Lemma CreateUser_empty_name (dob : string) :
  service.CreateUser "" dob
  = Ret (db.User_zero, Some (errors_New "name cannot be empty")).
Proof. reflexivity. Qed.

Lemma CreateUser_bad_date (name dob : string) :
  name <> "" -> time.Parse dob = None ->
  service.CreateUser name dob
  = Ret (db.User_zero,
         Some (errors_New "invalid date format, use YYYY-MM-DD")).
Proof.
  intros Hn Hp. unfold service.CreateUser.
  destruct (String.eqb name "") eqn:E;
    [apply name_eqb_empty in E; contradiction |].
  now rewrite Hp.
Qed.

Lemma CreateUser_delegates (name dob : string) :
  name <> "" -> time.Parse dob <> None ->
  service.CreateUser name dob = call (Create name dob).
Proof.
  intros Hn Hp. unfold service.CreateUser.
  destruct (String.eqb name "") eqn:E;
    [apply name_eqb_empty in E; contradiction |].
  destruct (time.Parse dob); [reflexivity | contradiction].
Qed.

Lemma UpdateUser_empty_name (id : Z) (dob : string) :
  service.UpdateUser id "" dob
  = Ret (db.User_zero, Some (errors_New "name cannot be empty")).
Proof. reflexivity. Qed.

Lemma UpdateUser_bad_date (id : Z) (name dob : string) :
  name <> "" -> time.Parse dob = None ->
  service.UpdateUser id name dob
  = Ret (db.User_zero,
         Some (errors_New "invalid date format, use YYYY-MM-DD")).
Proof.
  intros Hn Hp. unfold service.UpdateUser.
  destruct (String.eqb name "") eqn:E;
    [apply name_eqb_empty in E; contradiction |].
  now rewrite Hp.
Qed.

Lemma UpdateUser_delegates (id : Z) (name dob : string) :
  name <> "" -> time.Parse dob <> None ->
  service.UpdateUser id name dob = call (Update id name dob).
Proof.
  intros Hn Hp. unfold service.UpdateUser.
  destruct (String.eqb name "") eqn:E;
    [apply name_eqb_empty in E; contradiction |].
  destruct (time.Parse dob); [reflexivity | contradiction].
Qed.

(** A refused input, either way of looking at it. *)
Lemma invalid_dec (name dob : string) :
  {name = "" \/ time.Parse dob = None}
  + {name <> "" /\ time.Parse dob <> None}.
Proof.
  destruct (string_dec name "") as [-> | Hn]; [left; now left |].
  destruct (time.Parse dob) eqn:E; [right | left; now right].
  split; [assumption | discriminate].
Qed.

Lemma CreateUser_fails_iff (name dob : string) :
  fails_validation (service.CreateUser name dob)
  <-> name = "" \/ time.Parse dob = None.
Proof.
  split.
  - intros [e [_ He]].
    destruct (invalid_dec name dob) as [H | [Hn Hp]]; [assumption |].
    rewrite (CreateUser_delegates name dob Hn Hp) in He. discriminate.
  - intros H. destruct (string_dec name "") as [-> | Hn].
    + eexists. split; [left; reflexivity | apply CreateUser_empty_name].
    + destruct H as [H | H]; [contradiction |].
      eexists. split; [right; reflexivity |].
      now apply CreateUser_bad_date.
Qed.

Lemma UpdateUser_fails_iff (id : Z) (name dob : string) :
  fails_validation (service.UpdateUser id name dob)
  <-> name = "" \/ time.Parse dob = None.
Proof.
  split.
  - intros [e [_ He]].
    destruct (invalid_dec name dob) as [H | [Hn Hp]]; [assumption |].
    rewrite (UpdateUser_delegates id name dob Hn Hp) in He. discriminate.
  - intros H. destruct (string_dec name "") as [-> | Hn].
    + eexists. split; [left; reflexivity | apply UpdateUser_empty_name].
    + destruct H as [H | H]; [contradiction |].
      eexists. split; [right; reflexivity |].
      now apply UpdateUser_bad_date.
Qed.

Context {S : Type} `{UserRepository S}.

(** Running a single repository call. *)
Lemma exec_call (c : RepoCall) (s : S) :
  exec (call c) s
  = mkOutcome (fst (handle c s)) (snd (handle c s)) [c].
Proof.
  unfold call. cbn [exec]. now destruct (handle c s).
Qed.

Lemma exec_Ret {R : Type} (r : R) (s : S) :
  exec (Ret r) s = mkOutcome r s [].
Proof. reflexivity. Qed.

End Validation.

(** C4. [CreateUser] fails with a validation error if and only if the
    name is empty or the date text does not parse as YYYY-MM-DD; on every
    other input it is the repository's create operation, whose result
    (user and error alike) and store it returns unchanged. *)
Theorem CreateUser_validation_iff :
  forall name dob : string,
    (fails_validation (service.CreateUser name dob)
     <-> name = "" \/ time.Parse dob = None)
    /\ (~ (name = "" \/ time.Parse dob = None) ->
        service.CreateUser name dob = call (Create name dob)
        /\ forall (S : Type) (repo : UserRepository S) (s : S),
            exec (service.CreateUser name dob) s
            = mkOutcome (fst (repo_Create name dob s))
                (snd (repo_Create name dob s)) [Create name dob])
    /\ fails_validation (service.CreateUser "" "1990-01-01")
    /\ fails_validation (service.CreateUser "Alice" "not-a-date").
Proof.
  intros name dob. split; [apply CreateUser_fails_iff | split].
  - intros Hv.
    assert (Hn : name <> "") by tauto.
    assert (Hp : time.Parse dob <> None) by tauto.
    rewrite (CreateUser_delegates name dob Hn Hp).
    split; [reflexivity |]. intros S repo s.
    exact (exec_call (Create name dob) s).
  - split; apply CreateUser_fails_iff; [now left | now right].
Qed.

Lemma CreateUser_validation_iff_witness :
  ~ ("Alice" = "" \/ time.Parse "1990-05-10" = None)
  /\ exec (service.CreateUser "Alice" "1990-05-10") (cannedOk 1)
     = mkOutcome (alice, None) (cannedOk 1) [Create "Alice" "1990-05-10"].
Proof.
  assert (Hv : ~ ("Alice" = "" \/ time.Parse "1990-05-10" = None))
    by (intros [Hv | Hv]; discriminate Hv).
  split; [exact Hv |].
  exact (proj2 (proj1 (proj2 (CreateUser_validation_iff
                                "Alice" "1990-05-10")) Hv)
           Canned cannedRepo (cannedOk 1)).
Defined.

(** C5. When [CreateUser] or [UpdateUser] refuses its input (empty name
    or a date text that does not parse), it returns the validation error
    without calling the repository: no call is made and the store is
    untouched.  Whatever call does reach the repository carries a
    non-empty name and a date text that parses. *)
Theorem validation_precedes_gateway :
  forall (S : Type) (repo : UserRepository S) (s : S)
         (id : Z) (name dob : string),
    (name = "" \/ time.Parse dob = None ->
     (calls (exec (service.CreateUser name dob) s) = []
      /\ store (exec (service.CreateUser name dob) s) = s
      /\ exists e, ValidationError e
           /\ result (exec (service.CreateUser name dob) s)
              = (db.User_zero, Some e))
     /\ (calls (exec (service.UpdateUser id name dob) s) = []
         /\ store (exec (service.UpdateUser id name dob) s) = s
         /\ exists e, ValidationError e
              /\ result (exec (service.UpdateUser id name dob) s)
                 = (db.User_zero, Some e)))
    /\ (forall c : RepoCall,
           In c (calls (exec (service.CreateUser name dob) s))
           \/ In c (calls (exec (service.UpdateUser id name dob) s)) ->
           (c = Create name dob \/ c = Update id name dob)
           /\ name <> "" /\ time.Parse dob <> None).
Proof.
  intros S repo s id name dob. split.
  - intros Hbad.
    destruct (proj2 (CreateUser_fails_iff name dob) Hbad) as [e [He ->]].
    destruct (proj2 (UpdateUser_fails_iff id name dob) Hbad) as [e' [He' ->]].
    cbn [exec calls store result].
    split; (split; [reflexivity | split; [reflexivity |]]).
    + exists e. now split.
    + exists e'. now split.
  - intros c Hc.
    destruct (invalid_dec name dob) as [Hbad | [Hn Hp]].
    + destruct (proj2 (CreateUser_fails_iff name dob) Hbad) as [e [_ Hc1]].
      destruct (proj2 (UpdateUser_fails_iff id name dob) Hbad) as [e' [_ Hc2]].
      rewrite Hc1, Hc2 in Hc. cbn in Hc. tauto.
    + rewrite (CreateUser_delegates name dob Hn Hp) in Hc.
      rewrite (UpdateUser_delegates id name dob Hn Hp) in Hc.
      rewrite (exec_call (Create name dob) s) in Hc.
      rewrite (exec_call (Update id name dob) s) in Hc.
      cbn [calls In] in Hc.
      repeat split; try assumption.
      destruct Hc as [[Hc | []] | [Hc | []]]; subst c; [now left | now right].
Qed.

Lemma validation_precedes_gateway_witness :
  ("Alice" = "" \/ time.Parse "10-05-1990" = None)
  /\ calls (exec (service.CreateUser "Alice" "10-05-1990") (cannedOk 1)) = []
  /\ calls (exec (service.UpdateUser 1 "Alice" "10-05-1990") (cannedOk 1)) = [].
Proof.
  assert (Hbad : "Alice" = "" \/ time.Parse "10-05-1990" = None)
    by (right; reflexivity).
  pose proof (proj1 (validation_precedes_gateway Canned cannedRepo
                       (cannedOk 1) 1 "Alice" "10-05-1990") Hbad) as Hw.
  split; [exact Hbad |].
  split; [exact (proj1 (proj1 Hw)) | exact (proj1 (proj2 Hw))].
Defined.

(** C6. [UpdateUser] validates a (name, date) pair exactly as
    [CreateUser] does: one refuses a pair if and only if the other does,
    and with the same error; a pair that passes goes to the repository's
    update operation, whose answer is returned as it is, a not-found error
    for an unknown id included. *)
Theorem UpdateUser_same_validation :
  forall (id : Z) (name dob : string),
    (fails_validation (service.UpdateUser id name dob)
     <-> fails_validation (service.CreateUser name dob))
    /\ (forall r, service.UpdateUser id name dob = Ret r
                  <-> service.CreateUser name dob = Ret r)
    /\ (~ fails_validation (service.CreateUser name dob) ->
        service.UpdateUser id name dob = call (Update id name dob)
        /\ forall (S : Type) (repo : UserRepository S) (s s' : S)
                  (u : db.User),
            repo_Update id name dob s = ((u, Some ErrNoRows), s') ->
            exec (service.UpdateUser id name dob) s
            = mkOutcome (u, Some ErrNoRows) s' [Update id name dob]).
Proof.
  intros id name dob. split; [| split].
  - now rewrite UpdateUser_fails_iff, CreateUser_fails_iff.
  - intros r.
    destruct (invalid_dec name dob) as [Hbad | [Hn Hp]].
    + destruct (string_dec name "") as [-> | Hn].
      * now rewrite UpdateUser_empty_name, CreateUser_empty_name.
      * destruct Hbad as [Hbad | Hbad]; [contradiction |].
        now rewrite (UpdateUser_bad_date id name dob Hn Hbad),
          (CreateUser_bad_date name dob Hn Hbad).
    + rewrite (UpdateUser_delegates id name dob Hn Hp),
        (CreateUser_delegates name dob Hn Hp).
      split; discriminate.
  - intros Hok. rewrite CreateUser_fails_iff in Hok.
    assert (Hn : name <> "") by tauto.
    assert (Hp : time.Parse dob <> None) by tauto.
    rewrite (UpdateUser_delegates id name dob Hn Hp).
    split; [reflexivity |]. intros S repo s s' u Hu.
    rewrite (exec_call (Update id name dob) s).
    cbn [handle]. now rewrite Hu.
Qed.

Lemma UpdateUser_same_validation_witness :
  ~ fails_validation (service.CreateUser "Alice" "1990-05-10")
  /\ exec (service.UpdateUser 7 "Alice" "1990-05-10") cannedNoRows
     = mkOutcome (db.User_zero, Some ErrNoRows) cannedNoRows
         [Update 7 "Alice" "1990-05-10"].
Proof.
  assert (Hok : ~ fails_validation (service.CreateUser "Alice" "1990-05-10"))
    by (intros [e [_ He]]; discriminate He).
  split; [exact Hok |].
  exact (proj2 (proj2 (proj2 (UpdateUser_same_validation
                                7 "Alice" "1990-05-10")) Hok)
           Canned cannedRepo cannedNoRows cannedNoRows db.User_zero
           eq_refl).
Defined.




(** C8. For a date of birth strictly after the current date,
    [CalculateAge] returns a negative number: it has no error result and
    does not clamp at 0.  [CreateUser] accepts a date text that parses,
    whatever day it names: a text naming a day after the current date is
    handed to the repository, and the age of that day is negative. *)
Theorem future_birth_date :
  (forall now dob : Time,
      representable now -> representable dob -> date_before now dob ->
      service.CalculateAge now dob < 0)
  /\ (forall (now t : Time) (name text : string),
         representable now ->
         name <> "" -> time.Parse text = Some t -> date_before now t ->
         service.CreateUser name text = call (Create name text)
         /\ service.CalculateAge now t < 0)
  /\ service.CalculateAge (Date 2024 6 15) (Date 2024 6 16) = -1
  /\ service.CalculateAge (Date 2024 6 15) (Date 2030 1 1) = -6
  /\ service.CreateUser "Alice" "2999-12-31"
     = call (Create "Alice" "2999-12-31").
Proof.
  assert (Hneg : forall now dob : Time,
             representable now -> representable dob ->
             date_before now dob -> service.CalculateAge now dob < 0).
  { intros now dob Hn Hd [Hy | [Hy Hmd]].
    - destruct (CalculateAge_cases now dob Hn Hd) as [-> | ->]; lia.
    - rewrite (CalculateAge_before now dob Hn Hd Hmd). lia. }
  split; [exact Hneg | split; [| repeat split; reflexivity]].
  intros now t name text Hn Hname Hp Hb. split.
  - apply CreateUser_delegates; [exact Hname | rewrite Hp; discriminate].
  - apply Hneg; [exact Hn | exact (Parse_representable text t Hp) | exact Hb].
Qed.

Lemma future_birth_date_witness :
  representable (Date 2024 12 31) /\ representable (Date 2025 1 1)
  /\ date_before (Date 2024 12 31) (Date 2025 1 1)
  /\ service.CalculateAge (Date 2024 12 31) (Date 2025 1 1) < 0.
Proof.
  assert (Hn : representable (Date 2024 12 31))
    by (unfold representable; simpl; lia).
  assert (Hd : representable (Date 2025 1 1))
    by (unfold representable; simpl; lia).
  assert (Hb : date_before (Date 2024 12 31) (Date 2025 1 1))
    by (left; simpl; lia).
  split; [exact Hn | split; [exact Hd | split; [exact Hb |]]].
  exact (proj1 future_birth_date _ _ Hn Hd Hb).
Defined.

(** ** Pagination in [ListUsers] *)

Section Pagination.

Lemma normal_page_bounds (page : Z) : 1 <= normal_page page.
Proof. unfold normal_page. destruct (Z.ltb_spec page 1); lia. Qed.

Lemma normal_limit_bounds (limit : Z) : 1 <= normal_limit limit <= 100.
Proof.
  unfold normal_limit.
  destruct (Z.ltb_spec limit 1); [lia |].
  destruct (Z.ltb_spec 100 limit); lia.
Qed.

Lemma normal_page_max (page : Z) : normal_page page = Z.max page 1.
Proof. unfold normal_page. destruct (Z.ltb_spec page 1); lia. Qed.

Lemma normal_limit_min (limit : Z) :
  normal_limit limit = if limit <? 1 then 10 else Z.min limit 100.
Proof.
  unfold normal_limit.
  destruct (Z.ltb_spec limit 1); [reflexivity |].
  destruct (Z.ltb_spec 100 limit); lia.
Qed.

(** The second clamp of the source acts on the result of the first. *)
Lemma clamp_twice (limit : Z) :
  (if 100 <? (if limit <? 1 then 10 else limit) then 100
   else if limit <? 1 then 10 else limit)
  = normal_limit limit.
Proof.
  unfold normal_limit.
  destruct (Z.ltb_spec limit 1); [reflexivity |]. reflexivity.
Qed.

Lemma int32_normal_limit (limit : Z) :
  GoInt.int32 (normal_limit limit) = normal_limit limit.
Proof.
  apply wrap32_small. pose proof (normal_limit_bounds limit).
  unfold GoInt.in_range. change (2 ^ (32 - 1)) with 2147483648. lia.
Qed.

(** The loop of [ListUsers] builds one response per row, in order. *)
Lemma responseData_map (now : Time) (users : list db.User) :
  service.responseData now users = map (service.toResponse now) users.
Proof.
  unfold service.responseData.
  assert (Hacc : forall acc : list models.UserResponse,
             fold_left
               (fun acc user => (acc ++ [service.toResponse now user])%list)
               users acc
             = (acc ++ map (service.toResponse now) users)%list).
  { induction users as [| u users IH]; intros acc; cbn [fold_left map].
    - now rewrite app_nil_r.
    - rewrite IH, <- app_assoc. reflexivity. }
  apply Hacc.
Qed.

Context {S : Type} `{UserRepository S}.

(** [ListUsers], unfolded against a repository: one count, then one
    list with the normalized limit and the narrowed offset. *)
Lemma exec_ListUsers (now : Time) (page limit : Z) (s : S) :
  exec (service.ListUsers now page limit) s
  = let l := normal_limit limit in
    let off := GoInt.int32 (offset_int page limit) in
    match repo_Count s with
    | ((_, Some e), s1) =>
        mkOutcome (models.UsersListResponse_zero, Some e) s1 [Count]
    | ((total, None), s1) =>
        match repo_List l off s1 with
        | ((_, Some e), s2) =>
            mkOutcome (models.UsersListResponse_zero, Some e) s2
              [Count; List l off]
        | ((users, None), s2) =>
            mkOutcome
              (models.mkUsersListResponse
                 (service.responseData now users) total
                 (normal_page page) l (service.totalPages total l),
               None)
              s2 [Count; List l off]
        end
    end.
Proof.
  unfold service.ListUsers. cbv zeta.
  rewrite clamp_twice, int32_normal_limit.
  fold (normal_page page). fold (offset_int page limit).
  cbn [call bind exec handle].
  destruct (repo_Count s) as [[total [e |]] s1]; [reflexivity |].
  cbn [call bind exec handle].
  destruct (repo_List _ _ s1) as [[users [e |]] s2]; reflexivity.
Qed.

End Pagination.

Section Offsets.

Local Ltac in64 :=
  unfold GoInt.in_range;
  change (2 ^ (64 - 1)) with 9223372036854775808; lia.

Local Ltac in32 :=
  unfold GoInt.in_range;
  change (2 ^ (32 - 1)) with 2147483648; lia.

(** With [page] a Go [int], only the product can wrap. *)
Lemma offset_int_wrap (page limit : Z) :
  GoInt.is_int page ->
  offset_int page limit = GoInt.int (normal_offset page limit).
Proof.
  unfold GoInt.is_int, GoInt.in_range.
  change (2 ^ (64 - 1)) with 9223372036854775808. intros Hp.
  unfold offset_int, normal_offset, GoInt.mul, GoInt.sub, GoInt.int.
  pose proof (normal_page_bounds page) as Hb.
  assert (Hle : normal_page page <= 9223372036854775807)
    by (unfold normal_page; destruct (Z.ltb_spec page 1); lia).
  rewrite (wrap64_small (normal_page page - 1)) by in64.
  reflexivity.
Qed.

(** A product that fits in 32 bits is passed on exactly. *)
Lemma offset_exact (page limit : Z) :
  normal_offset page limit <= GoInt.MaxInt32 ->
  GoInt.int32 (offset_int page limit) = normal_offset page limit.
Proof.
  unfold GoInt.MaxInt32, normal_offset. intros Hfit.
  pose proof (normal_page_bounds page) as Hp.
  pose proof (normal_limit_bounds limit) as Hl.
  assert (Hsmall : normal_page page - 1 <= 2147483647) by nia.
  assert (H0 : 0 <= (normal_page page - 1) * normal_limit limit) by nia.
  unfold offset_int, GoInt.mul, GoInt.sub, GoInt.int32.
  rewrite (wrap64_small (normal_page page - 1)) by in64.
  rewrite wrap64_small by in64.
  apply wrap32_small. in32.
Qed.

End Offsets.

(** C2, as the code has it.  [ListUsers] normalizes its arguments exactly
    as stated (page below 1 becomes 1, limit below 1 becomes 10, limit
    above 100 becomes 100): it asks the repository for the count and then
    for one page with the normalized limit, and the offset it passes is
    [(page - 1) * limit] of the normalized values whenever that product
    fits the repository's 32-bit offset parameter.  Calling it with the
    raw or with the normalized arguments is the same program, so
    [ListUsers(0, 0)] is [ListUsers(1, 10)] and [ListUsers(1, 1000)] uses
    limit 100. *)
Theorem ListUsers_normalization :
  forall (S : Type) (repo : UserRepository S) (s : S)
         (now : Time) (page limit : Z),
    (normal_offset page limit <= GoInt.MaxInt32 ->
     forall (total : Z) (s1 : S),
       repo_Count s = ((total, None), s1) ->
       calls (exec (service.ListUsers now page limit) s)
       = [Count; List (normal_limit limit) (normal_offset page limit)])
    /\ service.ListUsers now page limit
       = service.ListUsers now (normal_page page) (normal_limit limit)
    /\ service.ListUsers now 0 0 = service.ListUsers now 1 10
    /\ service.ListUsers now 1 1000 = service.ListUsers now 1 100
    /\ normal_page 0 = 1 /\ normal_limit 0 = 10 /\ normal_limit 1000 = 100.
Proof.
  intros S repo s now page limit. split; [| split].
  - intros Hfit total s1 Hc.
    rewrite exec_ListUsers. cbv zeta. rewrite Hc.
    rewrite (offset_exact page limit Hfit).
    destruct (repo_List _ _ s1) as [[users [e |]] s2]; reflexivity.
  - unfold service.ListUsers. cbv zeta.
    rewrite !clamp_twice.
    fold (normal_page page). fold (normal_page (normal_page page)).
    assert (Hpp : normal_page (normal_page page) = normal_page page).
    { pose proof (normal_page_bounds page).
      unfold normal_page at 1. destruct (Z.ltb_spec (normal_page page) 1);
        [lia | reflexivity]. }
    assert (Hll : normal_limit (normal_limit limit) = normal_limit limit).
    { pose proof (normal_limit_bounds limit).
      unfold normal_limit at 1.
      destruct (Z.ltb_spec (normal_limit limit) 1); [lia |].
      destruct (Z.ltb_spec 100 (normal_limit limit)); [lia | reflexivity]. }
    now rewrite Hpp, Hll.
  - repeat split; reflexivity.
Qed.

Lemma ListUsers_normalization_witness :
  normal_offset 3 0 <= GoInt.MaxInt32
  /\ calls (exec (service.ListUsers (Date 2024 6 15) 3 0) (cannedOk 25))
     = [Count; List 10 20].
Proof.
  assert (Hfit : normal_offset 3 0 <= GoInt.MaxInt32)
    by (vm_compute; discriminate).
  split; [exact Hfit |].
  exact (proj1 (ListUsers_normalization Canned cannedRepo (cannedOk 25)
                  (Date 2024 6 15) 3 0) Hfit 25 (cannedOk 25) eq_refl).
Defined.

(** The claim C2 fails for large pages: page 21474838 with limit 100 is
    already normalized, the product [(page - 1) * limit] is 2147483700, and
    the repository is asked for offset -2147483596. *)
Lemma ListUsers_offset_not_product :
  GoInt.is_int 21474838 /\ GoInt.is_int 100
  /\ normal_page 21474838 = 21474838 /\ normal_limit 100 = 100
  /\ calls (exec (service.ListUsers (Date 2024 6 15) 21474838 100)
              (cannedOk 25))
     = [Count; List 100 (-2147483596)]
  /\ (21474838 - 1) * 100 = 2147483700
  /\ -2147483596 <> (21474838 - 1) * 100.
Proof.
  repeat split; try reflexivity; try (vm_compute; discriminate).
Qed.

Section TotalPages.

Lemma wrap64_add_idemp (a b : Z) :
  GoInt.wrap 64 (GoInt.wrap 64 a + b) = GoInt.wrap 64 (a + b).
Proof.
  unfold GoInt.wrap.
  change (2 ^ (64 - 1)) with 9223372036854775808.
  change (2 ^ 64) with 18446744073709551616.
  f_equal.
  replace ((a + 9223372036854775808) mod 18446744073709551616
           - 9223372036854775808 + b + 9223372036854775808)
    with ((a + 9223372036854775808) mod 18446744073709551616 + b) by ring.
  rewrite Zplus_mod_idemp_l. f_equal. ring.
Qed.

(** Without overflow in [total + limit - 1], the page count of the
    source is the quotient on unbounded integers. *)
Lemma totalPages_exact (total limit : Z) :
  0 <= total -> 1 <= limit <= 100 ->
  total + limit - 1 <= GoInt.MaxInt64 ->
  service.totalPages total limit = ceil_div total limit.
Proof.
  unfold GoInt.MaxInt64. intros Ht Hl Hfit.
  unfold service.totalPages, ceil_div.
  unfold GoInt.int, GoInt.div, GoInt.sub, GoInt.add, GoInt.int64.
  assert (Hin : forall z, 0 <= z <= 9223372036854775807 ->
                          GoInt.wrap 64 z = z).
  { intros z Hz. apply wrap64_small. unfold GoInt.in_range.
    change (2 ^ (64 - 1)) with 9223372036854775808. lia. }
  rewrite (Hin limit) by lia.
  replace (GoInt.wrap 64 (total + limit) - 1)
    with (GoInt.wrap 64 (total + limit) + -1) by ring.
  rewrite wrap64_add_idemp.
  replace (total + limit + -1) with (total + limit - 1) by ring.
  rewrite (Hin (total + limit - 1)) by lia.
  rewrite Z.quot_div_nonneg by lia.
  assert (Hq : 0 <= (total + limit - 1) / limit <= total + limit - 1).
  { split; [apply Z.div_pos; lia |].
    apply Z.div_le_upper_bound; nia. }
  rewrite !(Hin ((total + limit - 1) / limit)) by lia. reflexivity.
Qed.

(** [ceil_div] is the ceiling: the least number of pages of size
    [limit] that hold [total] rows. *)
Lemma ceil_div_least (total limit : Z) :
  0 <= total -> 1 <= limit ->
  total <= ceil_div total limit * limit
  /\ (ceil_div total limit - 1) * limit < total.
Proof.
  intros Ht Hl. unfold ceil_div.
  pose proof (Z.div_mod (total + limit - 1) limit ltac:(lia)) as Hdm.
  pose proof (Z.mod_pos_bound (total + limit - 1) limit ltac:(lia)) as Hm.
  nia.
Qed.

End TotalPages.

(** C3, as the code has it.  For a count [total >= 0] and a normalized
    limit in [1, 100] with [total + limit - 1] within [int64], the
    [totalPages] that [ListUsers] returns is the ceiling division
    [(total + limit - 1) / limit]; the field is always computed from the
    returned total and the returned limit.  25 rows in pages of 10 make 3
    pages, 20 rows make 2. *)
Theorem totalPages_is_ceiling :
  forall (S : Type) (repo : UserRepository S) (s : S)
         (now : Time) (page limit : Z) (resp : models.UsersListResponse),
    result (exec (service.ListUsers now page limit) s) = (resp, None) ->
    models.TotalPages resp
    = service.totalPages (models.Total resp) (models.Limit resp)
    /\ 1 <= models.Limit resp <= 100
    /\ (0 <= models.Total resp ->
        models.Total resp + models.Limit resp - 1 <= GoInt.MaxInt64 ->
        models.TotalPages resp
        = ceil_div (models.Total resp) (models.Limit resp)
        /\ models.Total resp <= models.TotalPages resp * models.Limit resp
        /\ (models.TotalPages resp - 1) * models.Limit resp
           < models.Total resp)
    /\ service.totalPages 25 10 = 3
    /\ service.totalPages 20 10 = 2.
Proof.
  intros S repo s now page limit resp Hr.
  rewrite exec_ListUsers in Hr. cbv zeta in Hr.
  destruct (repo_Count s) as [[total [e |]] s1]; [discriminate Hr |].
  destruct (repo_List _ _ s1) as [[users [e |]] s2]; [discriminate Hr |].
  cbn [result] in Hr. injection Hr as <-.
  cbn [models.TotalPages models.Total models.Limit].
  pose proof (normal_limit_bounds limit) as Hl.
  split; [reflexivity | split; [exact Hl | split]].
  - intros Ht Hfit.
    rewrite (totalPages_exact total (normal_limit limit) Ht Hl Hfit).
    split; [reflexivity |].
    apply ceil_div_least; lia.
  - split; reflexivity.
Qed.

Lemma totalPages_is_ceiling_witness :
  result (exec (service.ListUsers (Date 2024 6 15) 3 10) (cannedOk 25))
  = (models.mkUsersListResponse
       (service.responseData (Date 2024 6 15) [alice; bob]) 25 3 10 3,
     None)
  /\ 0 <= 25 /\ 25 + 10 - 1 <= GoInt.MaxInt64
  /\ 3 = ceil_div 25 10.
Proof.
  assert (Hr : result (exec (service.ListUsers (Date 2024 6 15) 3 10)
                         (cannedOk 25))
               = (models.mkUsersListResponse
                    (service.responseData (Date 2024 6 15) [alice; bob])
                    25 3 10 3, None)) by reflexivity.
  assert (Ht : 0 <= 25) by lia.
  assert (Hfit : 25 + 10 - 1 <= GoInt.MaxInt64) by (vm_compute; discriminate).
  split; [exact Hr | split; [exact Ht | split; [exact Hfit |]]].
  exact (proj1 (proj1 (proj2 (proj2
           (totalPages_is_ceiling Canned cannedRepo (cannedOk 25)
              (Date 2024 6 15) 3 10 _ Hr))) Ht Hfit)).
Defined.

(** The claim C3 fails when [total + limit - 1] leaves [int64]: a count
    of [MaxInt64] with limit 10 gives a negative page count. *)
Lemma totalPages_wraps :
  0 <= GoInt.MaxInt64 /\ normal_limit 10 = 10
  /\ result (exec (service.ListUsers (Date 2024 6 15) 1 10)
               (cannedOk GoInt.MaxInt64))
     = (models.mkUsersListResponse
          (service.responseData (Date 2024 6 15) [alice; bob])
          GoInt.MaxInt64 1 10 (-922337203685477580),
        None)
  /\ (GoInt.MaxInt64 + 10 - 1) / 10 = 922337203685477581
  /\ service.totalPages GoInt.MaxInt64 10 <> ceil_div GoInt.MaxInt64 10.
Proof.
  repeat split; try reflexivity; vm_compute; discriminate.
Qed.

(** C9. On success the envelope of [ListUsers] carries the normalized
    page and limit, not the arguments: the page is [max(page, 1)], the
    limit is 10 for a limit below 1 and [min(limit, 100)] otherwise;
    [ListUsers(0, 1000)] reports page 1 and limit 100. *)
Theorem ListUsers_reports_normalized :
  forall (S : Type) (repo : UserRepository S) (s : S)
         (now : Time) (page limit : Z) (resp : models.UsersListResponse),
    result (exec (service.ListUsers now page limit) s) = (resp, None) ->
    models.Page resp = Z.max page 1
    /\ models.Limit resp = (if limit <? 1 then 10 else Z.min limit 100)
    /\ models.Page resp = normal_page page
    /\ models.Limit resp = normal_limit limit.
Proof.
  intros S repo s now page limit resp Hr.
  rewrite exec_ListUsers in Hr. cbv zeta in Hr.
  destruct (repo_Count s) as [[total [e |]] s1]; [discriminate Hr |].
  destruct (repo_List _ _ s1) as [[users [e |]] s2]; [discriminate Hr |].
  cbn [result] in Hr. injection Hr as <-.
  cbn [models.Page models.Limit].
  rewrite <- normal_page_max, <- normal_limit_min. repeat split.
Qed.

Lemma ListUsers_reports_normalized_witness :
  result (exec (service.ListUsers (Date 2024 6 15) 0 1000) (cannedOk 25))
  = (models.mkUsersListResponse
       (service.responseData (Date 2024 6 15) [alice; bob]) 25 1 100 1,
     None)
  /\ 1 = Z.max 0 1 /\ 100 = Z.min 1000 100.
Proof.
  assert (Hr : result (exec (service.ListUsers (Date 2024 6 15) 0 1000)
                         (cannedOk 25))
               = (models.mkUsersListResponse
                    (service.responseData (Date 2024 6 15) [alice; bob])
                    25 1 100 1, None)) by reflexivity.
  pose proof (ListUsers_reports_normalized Canned cannedRepo (cannedOk 25)
                (Date 2024 6 15) 0 1000 _ Hr) as Hw.
  split; [exact Hr |].
  split; [exact (proj1 Hw) | exact (proj1 (proj2 Hw))].
Defined.

(** C10. The offset handed to the repository's list operation is
    [(page - 1) * limit] of the normalized arguments, computed on [int]
    and then narrowed to [int32]: it equals the product when the product
    is below 2^31, and in every case differs from it by a multiple of
    2^32 and lies in the [int32] range.  Nothing keeps the product in
    range: page 42949673 with limit 100 asks for offset -96, and page
    42949674 for offset 4. *)
Theorem ListUsers_offset_narrowed :
  (forall (S : Type) (repo : UserRepository S) (s s1 : S)
          (now : Time) (page limit total : Z),
      GoInt.is_int page ->
      repo_Count s = ((total, None), s1) ->
      let off := GoInt.int32 (GoInt.int (normal_offset page limit)) in
      calls (exec (service.ListUsers now page limit) s)
      = [Count; List (normal_limit limit) off]
      /\ GoInt.is_int32 off
      /\ (exists q : Z, off = normal_offset page limit + q * 2 ^ 32)
      /\ (normal_offset page limit < 2 ^ 31 ->
          off = normal_offset page limit))
  /\ (forall now : Time,
         calls (exec (service.ListUsers now 42949673 100) (cannedOk 25))
         = [Count; List 100 (-96)])
  /\ (forall now : Time,
         calls (exec (service.ListUsers now 42949674 100) (cannedOk 25))
         = [Count; List 100 4]).
Proof.
  split; [| split; intros now; reflexivity].
  intros S repo s s1 now page limit total Hp Hc off.
  split; [| split; [| split]].
  - rewrite exec_ListUsers. cbv zeta. rewrite Hc.
    rewrite (offset_int_wrap page limit Hp). fold off.
    destruct (repo_List _ _ s1) as [[users [e |]] s2]; reflexivity.
  - apply wrap32_range.
  - apply int32_int_cong.
  - intros Hfit. unfold off.
    rewrite <- (offset_int_wrap page limit Hp).
    apply offset_exact.
    change (2 ^ 31) with 2147483648 in Hfit. unfold GoInt.MaxInt32. lia.
Qed.

Lemma ListUsers_offset_narrowed_witness :
  GoInt.is_int 3
  /\ calls (exec (service.ListUsers (Date 2024 6 15) 3 10) (cannedOk 25))
     = [Count; List 10 20]
  /\ normal_offset 3 10 < 2 ^ 31
  /\ GoInt.int32 (GoInt.int (normal_offset 3 10)) = normal_offset 3 10.
Proof.
  assert (Hp : GoInt.is_int 3)
    by (split; vm_compute; [discriminate | reflexivity]).
  assert (Hfit : normal_offset 3 10 < 2 ^ 31) by reflexivity.
  pose proof (proj1 ListUsers_offset_narrowed Canned cannedRepo
                (cannedOk 25) (cannedOk 25) (Date 2024 6 15) 3 10 25
                Hp eq_refl) as Hw.
  split; [exact Hp | split; [exact (proj1 Hw) | split; [exact Hfit |]]].
  exact (proj2 (proj2 (proj2 Hw)) Hfit).
Defined.

(** ** Further properties of the age derivation *)

Section AgeOrder.

Local Ltac years :=
  unfold representable in *;
  change (2 ^ 62) with 4611686018427387904 in *.

(** The age, whichever branch is taken. *)
Lemma CalculateAge_value (now dob : Time) :
  representable now -> representable dob ->
  (md_before now dob
   /\ service.CalculateAge now dob = Year now - Year dob - 1)
  \/ (~ md_before now dob
      /\ service.CalculateAge now dob = Year now - Year dob).
Proof.
  intros Hn Hd.
  destruct ((Month now <? Month dob)
            || ((Month now =? Month dob) && (Day now <? Day dob))) eqn:E.
  - apply md_before_dec in E. left. split; [exact E |].
    now apply CalculateAge_before.
  - assert (Hb : ~ md_before now dob)
      by (intros Hb; apply md_before_dec in Hb; congruence).
    right. split; [exact Hb |]. now apply CalculateAge_not_before.
Qed.

End AgeOrder.

(** X1. The age is negative exactly when the date of birth lies after
    the current date; for a birth date on or before the current date it
    is zero or more. *)
Theorem CalculateAge_negative_iff :
  forall now dob : Time,
    representable now -> representable dob ->
    (service.CalculateAge now dob < 0 <-> date_before now dob)
    /\ (0 <= service.CalculateAge now dob <-> ~ date_before now dob).
Proof.
  intros now dob Hn Hd.
  assert (Hiff : service.CalculateAge now dob < 0 <-> date_before now dob).
  { destruct (CalculateAge_value now dob Hn Hd) as [[Hb ->] | [Hb ->]];
      unfold date_before, md_before in *; split; intros H; lia. }
  split; [exact Hiff |]. rewrite <- Hiff. split; intros H; lia.
Qed.

Lemma CalculateAge_negative_iff_witness :
  representable (Date 2024 6 15) /\ representable (Date 2024 6 15)
  /\ 0 <= service.CalculateAge (Date 2024 6 15) (Date 2024 6 15).
Proof.
  assert (Hn : representable (Date 2024 6 15))
    by (unfold representable; simpl; lia).
  split; [exact Hn | split; [exact Hn |]].
  apply (proj2 (CalculateAge_negative_iff _ _ Hn Hn)).
  unfold date_before, md_before; simpl; lia.
Defined.

(** X2. The age never decreases as the current date advances, and a
    later date of birth never gives a higher age. *)
Theorem CalculateAge_monotone :
  forall now1 now2 dob1 dob2 : Time,
    representable now1 -> representable now2 ->
    representable dob1 -> representable dob2 ->
    (~ date_before now2 now1 ->
     service.CalculateAge now1 dob1 <= service.CalculateAge now2 dob1)
    /\ (~ date_before dob2 dob1 ->
        service.CalculateAge now1 dob2 <= service.CalculateAge now1 dob1).
Proof.
  intros now1 now2 dob1 dob2 Hn1 Hn2 Hd1 Hd2. split; intros Hle.
  - destruct (CalculateAge_value now1 dob1 Hn1 Hd1) as [[Ha ->] | [Ha ->]];
      destruct (CalculateAge_value now2 dob1 Hn2 Hd1) as [[Hb ->] | [Hb ->]];
      unfold date_before, md_before in *; lia.
  - destruct (CalculateAge_value now1 dob1 Hn1 Hd1) as [[Ha ->] | [Ha ->]];
      destruct (CalculateAge_value now1 dob2 Hn1 Hd2) as [[Hb ->] | [Hb ->]];
      unfold date_before, md_before in *; lia.
Qed.

Lemma CalculateAge_monotone_witness :
  ~ date_before (Date 2024 6 15) (Date 2024 6 14)
  /\ service.CalculateAge (Date 2024 6 14) (Date 2000 6 15)
     <= service.CalculateAge (Date 2024 6 15) (Date 2000 6 15).
Proof.
  assert (H1 : representable (Date 2024 6 14))
    by (unfold representable; simpl; lia).
  assert (H2 : representable (Date 2024 6 15))
    by (unfold representable; simpl; lia).
  assert (H3 : representable (Date 2000 6 15))
    by (unfold representable; simpl; lia).
  assert (Hle : ~ date_before (Date 2024 6 15) (Date 2024 6 14))
    by (unfold date_before, md_before; simpl; lia).
  split; [exact Hle |].
  exact (proj1 (CalculateAge_monotone (Date 2024 6 14) (Date 2024 6 15)
                  (Date 2000 6 15) (Date 2000 6 15) H1 H2 H3 H3) Hle).
Defined.

(** ** Further properties of [ListUsers] *)

Section ListUsersFacts.

(** Normalizing the arguments beforehand changes nothing. *)
Lemma ListUsers_normal_args (now : Time) (page limit : Z) :
  service.ListUsers now page limit
  = service.ListUsers now (normal_page page) (normal_limit limit).
Proof.
  unfold service.ListUsers. cbv zeta. rewrite !clamp_twice.
  fold (normal_page page). fold (normal_page (normal_page page)).
  assert (Hpp : normal_page (normal_page page) = normal_page page).
  { pose proof (normal_page_bounds page).
    unfold normal_page at 1.
    destruct (Z.ltb_spec (normal_page page) 1); [lia | reflexivity]. }
  assert (Hll : normal_limit (normal_limit limit) = normal_limit limit).
  { pose proof (normal_limit_bounds limit).
    unfold normal_limit at 1.
    destruct (Z.ltb_spec (normal_limit limit) 1); [lia |].
    destruct (Z.ltb_spec 100 (normal_limit limit)); [lia | reflexivity]. }
  now rewrite Hpp, Hll.
Qed.

End ListUsersFacts.

(** X3. [ListUsers] talks to the repository in one fixed way: it asks for
    the count and, only if that succeeds, for one page of at most 100
    rows at an offset in the [int32] range.  It makes no other call,
    whatever the arguments. *)
Theorem ListUsers_gateway_calls :
  forall (S : Type) (repo : UserRepository S) (s : S)
         (now : Time) (page limit : Z),
    (snd (fst (repo_Count s)) <> None
     /\ calls (exec (service.ListUsers now page limit) s) = [Count])
    \/ (snd (fst (repo_Count s)) = None
        /\ exists l off : Z,
            calls (exec (service.ListUsers now page limit) s)
            = [Count; List l off]
            /\ 1 <= l <= 100 /\ GoInt.is_int32 off).
Proof.
  intros S repo s now page limit.
  rewrite exec_ListUsers. cbv zeta.
  destruct (repo_Count s) as [[total [e |]] s1]; cbn [fst snd].
  - left. split; [discriminate | reflexivity].
  - right. split; [reflexivity |].
    exists (normal_limit limit), (GoInt.int32 (offset_int page limit)).
    split; [| split; [apply normal_limit_bounds | apply wrap32_range]].
    destruct (repo_List _ _ s1) as [[users [e |]] s2]; reflexivity.
Qed.

(** X4. When a repository call fails, [ListUsers] returns that call's
    error with the empty envelope: after a failed count it stops, after
    a failed list it drops the count it had.  It reports an error exactly
    when one of its two calls did. *)
Theorem ListUsers_error_results :
  forall (S : Type) (repo : UserRepository S) (s : S)
         (now : Time) (page limit : Z),
    let l := normal_limit limit in
    let off := GoInt.int32 (offset_int page limit) in
    (forall (total : Z) (e : error) (s1 : S),
        repo_Count s = ((total, Some e), s1) ->
        exec (service.ListUsers now page limit) s
        = mkOutcome (models.UsersListResponse_zero, Some e) s1 [Count])
    /\ (forall (total : Z) (s1 s2 : S) (users : list db.User) (e : error),
           repo_Count s = ((total, None), s1) ->
           repo_List l off s1 = ((users, Some e), s2) ->
           exec (service.ListUsers now page limit) s
           = mkOutcome (models.UsersListResponse_zero, Some e) s2
               [Count; List l off])
    /\ (snd (result (exec (service.ListUsers now page limit) s)) <> None ->
        fst (result (exec (service.ListUsers now page limit) s))
        = models.UsersListResponse_zero).
Proof.
  intros S repo s now page limit l off. split; [| split].
  - intros total e s1 Hc. rewrite exec_ListUsers. cbv zeta. now rewrite Hc.
  - intros total s1 s2 users e Hc Hl. rewrite exec_ListUsers. cbv zeta.
    rewrite Hc. fold l off. now rewrite Hl.
  - rewrite exec_ListUsers. cbv zeta.
    destruct (repo_Count s) as [[total [e |]] s1]; [reflexivity |].
    destruct (repo_List _ _ s1) as [[users [e |]] s2]; [reflexivity |].
    cbn [result snd]. congruence.
Qed.

Lemma ListUsers_error_results_witness :
  let failing :=
    mkCanned (alice, None) ([alice], Some (ErrStore "connection reset"))
      (7, None) None in
  repo_Count failing = ((7, None), failing)
  /\ exec (service.ListUsers (Date 2024 6 15) 2 5) failing
     = mkOutcome
         (models.UsersListResponse_zero, Some (ErrStore "connection reset"))
         failing [Count; List 5 5].
Proof.
  split; [reflexivity |].
  exact (proj1 (proj2 (ListUsers_error_results Canned cannedRepo
                         (mkCanned (alice, None)
                            ([alice], Some (ErrStore "connection reset"))
                            (7, None) None)
                         (Date 2024 6 15) 2 5))
           7 _ _ [alice] (ErrStore "connection reset") eq_refl eq_refl).
Defined.

(** X5. On success the envelope holds one entry per row the repository
    returned, in the same order, each with the row's id and name, its
    date of birth as text and its age at [now]; [total] is the count the
    repository gave. *)
Theorem ListUsers_data :
  forall (S : Type) (repo : UserRepository S) (s : S)
         (now : Time) (page limit : Z) (resp : models.UsersListResponse),
    result (exec (service.ListUsers now page limit) s) = (resp, None) ->
    exists (total : Z) (users : list db.User) (s1 s2 : S),
      repo_Count s = ((total, None), s1)
      /\ repo_List (normal_limit limit)
           (GoInt.int32 (offset_int page limit)) s1 = ((users, None), s2)
      /\ store (exec (service.ListUsers now page limit) s) = s2
      /\ models.Total resp = total
      /\ List.length (models.Data resp) = List.length users
      /\ models.Data resp
         = map (fun u =>
                  models.mkUserResponse (db.ID u) (db.Name u)
                    (time.Format (pgtype.Time (db.Dob u)))
                    (Some (service.CalculateAge now (pgtype.Time (db.Dob u)))))
             users.
Proof.
  intros S repo s now page limit resp Hr.
  pose proof (exec_ListUsers now page limit s) as He. cbv zeta in He.
  destruct (repo_Count s) as [[total [e |]] s1];
    [rewrite He in Hr; discriminate Hr |].
  destruct (repo_List _ _ s1) as [[users [e |]] s2] eqn:El;
    [rewrite He in Hr; discriminate Hr |].
  rewrite He in *. cbn [result] in Hr. injection Hr as <-.
  exists total, users, s1, s2.
  cbn [store models.Total models.Data].
  rewrite responseData_map, length_map.
  repeat split; try reflexivity; exact El.
Qed.

Lemma ListUsers_data_witness :
  result (exec (service.ListUsers (Date 2024 6 15) 1 10) (cannedOk 2))
  = (models.mkUsersListResponse
       [models.mkUserResponse 1 "Alice" "1990-05-10" (Some 34);
        models.mkUserResponse 2 "Bob" "2000-06-16" (Some 23)]
       2 1 10 1, None)
  /\ exists (total : Z) (users : list db.User),
      total = 2 /\ List.length users = 2%nat.
Proof.
  assert (Hr : result (exec (service.ListUsers (Date 2024 6 15) 1 10)
                         (cannedOk 2))
               = (models.mkUsersListResponse
                    [models.mkUserResponse 1 "Alice" "1990-05-10" (Some 34);
                     models.mkUserResponse 2 "Bob" "2000-06-16" (Some 23)]
                    2 1 10 1, None)) by reflexivity.
  split; [exact Hr |].
  destruct (ListUsers_data Canned cannedRepo (cannedOk 2) (Date 2024 6 15)
              1 10 _ Hr)
    as [total [users [s1 [s2 [_ [_ [_ [Ht [Hl _]]]]]]]]].
  exists total, users. split; [symmetry; exact Ht | symmetry; exact Hl].
Defined.

(** X6. The pages 1 to [totalPages] are exactly the pages that start at
    an existing row: on success, with a count of zero or more that does
    not overflow the page arithmetic, the reported page is at most
    [totalPages] if and only if its offset [(page - 1) * limit] is below
    the total.  The page is not clamped to [totalPages]. *)
Theorem ListUsers_page_coverage :
  forall (S : Type) (repo : UserRepository S) (s : S)
         (now : Time) (page limit : Z) (resp : models.UsersListResponse),
    result (exec (service.ListUsers now page limit) s) = (resp, None) ->
    0 <= models.Total resp ->
    models.Total resp + models.Limit resp - 1 <= GoInt.MaxInt64 ->
    (models.Page resp <= models.TotalPages resp
     <-> (models.Page resp - 1) * models.Limit resp < models.Total resp)
    /\ (models.Total resp = 0 <-> models.TotalPages resp = 0).
Proof.
  intros S repo s now page limit resp Hr.
  rewrite exec_ListUsers in Hr. cbv zeta in Hr.
  destruct (repo_Count s) as [[total [e |]] s1]; [discriminate Hr |].
  destruct (repo_List _ _ s1) as [[users [e |]] s2]; [discriminate Hr |].
  cbn [result] in Hr. injection Hr as <-.
  cbn [models.TotalPages models.Total models.Limit models.Page].
  intros Ht Hfit.
  pose proof (normal_limit_bounds limit) as Hl.
  pose proof (normal_page_bounds page) as Hp.
  rewrite (totalPages_exact total (normal_limit limit) Ht Hl Hfit).
  pose proof (ceil_div_least total (normal_limit limit) Ht ltac:(lia))
    as [Hup Hlow].
  split; split; intros H; nia.
Qed.

Lemma ListUsers_page_coverage_witness :
  result (exec (service.ListUsers (Date 2024 6 15) 4 10) (cannedOk 25))
  = (models.mkUsersListResponse
       (service.responseData (Date 2024 6 15) [alice; bob]) 25 4 10 3, None)
  /\ ~ (4 <= 3) /\ ~ ((4 - 1) * 10 < 25).
Proof.
  assert (Hr : result (exec (service.ListUsers (Date 2024 6 15) 4 10)
                         (cannedOk 25))
               = (models.mkUsersListResponse
                    (service.responseData (Date 2024 6 15) [alice; bob])
                    25 4 10 3, None)) by reflexivity.
  assert (Ht : 0 <= 25) by lia.
  assert (Hfit : 25 + 10 - 1 <= GoInt.MaxInt64) by (vm_compute; discriminate).
  pose proof (proj1 (ListUsers_page_coverage Canned cannedRepo (cannedOk 25)
                       (Date 2024 6 15) 4 10 _ Hr Ht Hfit)) as Hw.
  cbn [models.Page models.TotalPages models.Limit models.Total] in Hw.
  split; [exact Hr |]. split; [lia |].
  intros Hlt. apply (proj2 Hw) in Hlt. lia.
Defined.

(** ** Date texts: what is accepted, and round trips *)

Section DateText.

Lemma digit_char_val (c : ascii) (d : Z) :
  time.digit_val c = Some d -> digit_char d = c.
Proof.
  unfold time.digit_val, digit_char. cbv zeta.
  destruct ((48 <=? Z.of_N (N_of_ascii c))
            && (Z.of_N (N_of_ascii c) <=? 57)); [| discriminate].
  intros [= <-].
  replace (48 + (Z.of_N (N_of_ascii c) - 48)) with (Z.of_N (N_of_ascii c))
    by ring.
  rewrite N2Z.id. apply ascii_N_embedding.
Qed.

Lemma skip1_inv (v v' : string) (c : ascii) :
  time.skip1 v c = Some v' -> v = String c v'.
Proof.
  destruct v as [| c0 r]; cbn; [discriminate |].
  destruct (Ascii.eqb c0 c) eqn:E; [| discriminate].
  apply Ascii.eqb_eq in E. now intros [= <-]; subst.
Qed.

Lemma getnum_fixed_inv (v v' : string) (n : Z) :
  time.getnum v true = Some (n, v') ->
  exists (a b : Z),
    is_digit a /\ is_digit b /\ n = a * 10 + b
    /\ v = String (digit_char a) (String (digit_char b) v').
Proof.
  destruct v as [| c0 [| c1 r]]; cbn; try discriminate.
  - destruct (time.digit_val c0); discriminate.
  - destruct (time.digit_val c0) as [a |] eqn:Ea; [| discriminate].
    destruct (time.digit_val c1) as [b |] eqn:Eb; [| discriminate].
    intros [= <- <-]. exists a, b.
    rewrite (digit_char_val c0 a Ea), (digit_char_val c1 b Eb).
    split; [exact (digit_val_range c0 a Ea) |].
    split; [exact (digit_val_range c1 b Eb) |].
    split; reflexivity.
Qed.

Lemma leadingInt_four_inv (c1 c2 c3 c4 : ascii) (q : Z) :
  time.leadingInt_from 0
    (String c1 (String c2 (String c3 (String c4 ""))))
  = Some (q, "") ->
  exists d1 d2 d3 d4 : Z,
    is_digit d1 /\ is_digit d2 /\ is_digit d3 /\ is_digit d4
    /\ q = 1000 * d1 + 100 * d2 + 10 * d3 + d4
    /\ digit_char d1 = c1 /\ digit_char d2 = c2
    /\ digit_char d3 = c3 /\ digit_char d4 = c4.
Proof.
  cbn [time.leadingInt_from].
  destruct (time.digit_val c1) as [d1 |] eqn:E1; [| discriminate].
  destruct (0 >? 2 ^ 63 / 10); [discriminate |]. cbv zeta.
  destruct (0 * 10 + d1 >? 2 ^ 63); [discriminate |].
  destruct (time.digit_val c2) as [d2 |] eqn:E2; [| discriminate].
  destruct (0 * 10 + d1 >? 2 ^ 63 / 10); [discriminate |].
  destruct ((0 * 10 + d1) * 10 + d2 >? 2 ^ 63); [discriminate |].
  destruct (time.digit_val c3) as [d3 |] eqn:E3; [| discriminate].
  destruct ((0 * 10 + d1) * 10 + d2 >? 2 ^ 63 / 10); [discriminate |].
  destruct (((0 * 10 + d1) * 10 + d2) * 10 + d3 >? 2 ^ 63); [discriminate |].
  destruct (time.digit_val c4) as [d4 |] eqn:E4; [| discriminate].
  destruct (((0 * 10 + d1) * 10 + d2) * 10 + d3 >? 2 ^ 63 / 10);
    [discriminate |].
  destruct ((((0 * 10 + d1) * 10 + d2) * 10 + d3) * 10 + d4 >? 2 ^ 63);
    [discriminate |].
  intros [= <-]. exists d1, d2, d3, d4.
  split; [exact (digit_val_range c1 d1 E1) |].
  split; [exact (digit_val_range c2 d2 E2) |].
  split; [exact (digit_val_range c3 d3 E3) |].
  split; [exact (digit_val_range c4 d4 E4) |].
  split; [lia |].
  repeat split; now apply digit_char_val.
Qed.

(** A text that parses has the shape YYYY-MM-DD and names a calendar
    day. *)
Lemma Parse_inv (text : string) (t : Time) :
  time.Parse text = Some t ->
  exists y1 y2 y3 y4 m1 m2 d1 d2 : Z,
    is_digit y1 /\ is_digit y2 /\ is_digit y3 /\ is_digit y4
    /\ is_digit m1 /\ is_digit m2 /\ is_digit d1 /\ is_digit d2
    /\ text = ymd_text y1 y2 y3 y4 m1 m2 d1 d2
    /\ t = Date (1000 * y1 + 100 * y2 + 10 * y3 + y4)
             (m1 * 10 + m2) (d1 * 10 + d2)
    /\ calendar_date y1 y2 y3 y4 m1 m2 d1 d2.
Proof.
  unfold time.Parse. intros H.
  destruct ((String.length text <? 4)%nat || negb (time.isDigit text 0))
    eqn:E0; [discriminate H |].
  apply orb_false_iff in E0. destruct E0 as [Elen Edig].
  apply Nat.ltb_ge in Elen. apply negb_false_iff in Edig.
  destruct text as [| c1 [| c2 [| c3 [| c4 rest]]]]; cbn in Elen; try lia.
  unfold time.isDigit in Edig. cbn [String.get] in Edig.
  destruct (time.digit_val c1) as [d1 |] eqn:Ed1; [| discriminate Edig].
  cbn [substring String.length Nat.sub] in H.
  rewrite Nat.sub_0_r, substring_all in H.
  replace (substring 0 0 rest) with EmptyString in H
    by (destruct rest; reflexivity).
  rewrite (atoi_digit_first c1 d1 _ Ed1) in H.
  unfold time.leadingInt in H.
  destruct (time.leadingInt_from 0 _) as [[q [| c r]] |] eqn:Eq;
    try discriminate H.
  apply leadingInt_four_inv in Eq.
  destruct Eq as (y1 & y2 & y3 & y4 & Hy1 & Hy2 & Hy3 & Hy4 & Hq
                  & <- & <- & <- & <-).
  unfold GoInt.int in H.
  rewrite (wrap64_small q) in H
    by (unfold GoInt.in_range, is_digit in *;
        change (2 ^ (64 - 1)) with 9223372036854775808; lia).
  destruct (time.skip1 rest "-") as [v1 |] eqn:Es1; [| discriminate H].
  apply skip1_inv in Es1. subst rest.
  destruct (time.getnum v1 true) as [[month v2] |] eqn:Eg1;
    [| discriminate H].
  apply getnum_fixed_inv in Eg1.
  destruct Eg1 as (m1 & m2 & Hm1 & Hm2 & -> & ->).
  destruct ((m1 * 10 + m2 <=? 0) || (12 <? m1 * 10 + m2)) eqn:Em;
    [discriminate H |].
  destruct (time.skip1 v2 "-") as [v3 |] eqn:Es2; [| discriminate H].
  apply skip1_inv in Es2. subst v2.
  destruct (time.getnum v3 true) as [[day v4] |] eqn:Eg2;
    [| discriminate H].
  apply getnum_fixed_inv in Eg2.
  destruct Eg2 as (a & b & Ha & Hb & -> & ->).
  destruct v4 as [| c v4]; [| discriminate H].
  cbn [String.length Nat.eqb negb] in H.
  destruct ((a * 10 + b <? 1) || (a * 10 + b >? time.daysIn (m1 * 10 + m2) q))
    eqn:Ed; [discriminate H |].
  injection H as <-.
  exists y1, y2, y3, y4, m1, m2, a, b.
  apply orb_false_iff in Em. destruct Em as [Em1 Em2].
  apply orb_false_iff in Ed. destruct Ed as [Ed1' Ed2].
  apply Z.leb_gt in Em1. apply Z.ltb_ge in Em2. apply Z.ltb_ge in Ed1'.
  assert (Ed3 : a * 10 + b <= time.daysIn (m1 * 10 + m2) q).
  { destruct (Z.gtb_spec (a * 10 + b) (time.daysIn (m1 * 10 + m2) q));
      [discriminate | lia]. }
  subst q.
  do 8 (split; [assumption |]).
  split; [reflexivity |]. split; [reflexivity |].
  unfold calendar_date. cbv zeta. lia.
Qed.

(** The printed form of a number below 10000, and of one below 100. *)
Lemma appendInt_4 (y : Z) :
  0 <= y <= 9999 ->
  time.appendInt y 4
  = String (digit_char (y / 1000)) (String (digit_char (y / 100 mod 10))
      (String (digit_char (y / 10 mod 10))
         (String (digit_char (y mod 10)) ""))).
Proof.
  intros Hy.
  assert (Hall :
    forallb
      (fun n : nat =>
         let y := Z.of_nat n in
         String.eqb (time.appendInt y 4)
           (String (digit_char (y / 1000))
              (String (digit_char (y / 100 mod 10))
                 (String (digit_char (y / 10 mod 10))
                    (String (digit_char (y mod 10)) "")))))
      (seq 0 (Z.to_nat 10000)) = true) by (vm_compute; reflexivity).
  rewrite forallb_forall in Hall.
  specialize (Hall (Z.to_nat y)). cbv zeta in Hall.
  rewrite Z2Nat.id in Hall by lia.
  apply String.eqb_eq, Hall, in_seq. lia.
Qed.

Lemma appendInt_2 (x : Z) :
  0 <= x <= 99 ->
  time.appendInt x 2
  = String (digit_char (x / 10)) (String (digit_char (x mod 10)) "").
Proof.
  intros Hx.
  assert (Hall :
    forallb
      (fun n : nat =>
         let x := Z.of_nat n in
         String.eqb (time.appendInt x 2)
           (String (digit_char (x / 10))
              (String (digit_char (x mod 10)) "")))
      (seq 0 100) = true) by (vm_compute; reflexivity).
  rewrite forallb_forall in Hall.
  specialize (Hall (Z.to_nat x)). cbv zeta in Hall.
  rewrite Z2Nat.id in Hall by lia.
  apply String.eqb_eq, Hall, in_seq. lia.
Qed.

(** Formatting a date given by its digits spells those digits. *)
Lemma Format_digits (y1 y2 y3 y4 m1 m2 d1 d2 : Z) :
  is_digit y1 -> is_digit y2 -> is_digit y3 -> is_digit y4 ->
  is_digit m1 -> is_digit m2 -> is_digit d1 -> is_digit d2 ->
  time.Format (Date (1000 * y1 + 100 * y2 + 10 * y3 + y4)
                 (m1 * 10 + m2) (d1 * 10 + d2))
  = ymd_text y1 y2 y3 y4 m1 m2 d1 d2.
Proof.
  unfold is_digit. intros Hy1 Hy2 Hy3 Hy4 Hm1 Hm2 Hd1 Hd2.
  unfold time.Format. cbn [Year Month Day].
  rewrite appendInt_4 by lia. rewrite !appendInt_2 by lia.
  replace ((1000 * y1 + 100 * y2 + 10 * y3 + y4) / 1000) with y1
    by (Z.div_mod_to_equations; lia).
  replace ((1000 * y1 + 100 * y2 + 10 * y3 + y4) / 100 mod 10) with y2
    by (Z.div_mod_to_equations; lia).
  replace ((1000 * y1 + 100 * y2 + 10 * y3 + y4) / 10 mod 10) with y3
    by (Z.div_mod_to_equations; lia).
  replace ((1000 * y1 + 100 * y2 + 10 * y3 + y4) mod 10) with y4
    by (Z.div_mod_to_equations; lia).
  replace ((m1 * 10 + m2) / 10) with m1 by (Z.div_mod_to_equations; lia).
  replace ((m1 * 10 + m2) mod 10) with m2 by (Z.div_mod_to_equations; lia).
  replace ((d1 * 10 + d2) / 10) with d1 by (Z.div_mod_to_equations; lia).
  replace ((d1 * 10 + d2) mod 10) with d2 by (Z.div_mod_to_equations; lia).
  reflexivity.
Qed.

End DateText.

Section DateTextFacts.

Lemma Parse_some_iff (text : string) :
  time.Parse text <> None <-> date_text text.
Proof.
  split.
  - destruct (time.Parse text) as [t |] eqn:E; [intros _ | congruence].
    destruct (Parse_inv text t E)
      as (y1 & y2 & y3 & y4 & m1 & m2 & d1 & d2 & H).
    exists y1, y2, y3, y4, m1, m2, d1, d2. tauto.
  - intros (y1 & y2 & y3 & y4 & m1 & m2 & d1 & d2 & Hy1 & Hy2 & Hy3 & Hy4
            & Hm1 & Hm2 & Hd1 & Hd2 & -> & Hcal).
    rewrite Parse_ymd_text by assumption.
    unfold calendar_date in Hcal. cbv zeta in Hcal.
    destruct Hcal as [[Hma Hmb] [Hda Hdb]].
    apply Z.leb_le in Hma, Hmb, Hda, Hdb.
    rewrite Hma, Hmb, Hda, Hdb. discriminate.
Qed.

Lemma Parse_Format_id (t : Time) :
  four_digit_date t -> time.Parse (time.Format t) = Some t.
Proof.
  destruct t as [Y M D]. unfold four_digit_date. cbn [Year Month Day].
  intros (HY & HM & HD).
  pose proof (daysIn_le_31 M Y) as H31.
  assert (EY : Y = 1000 * (Y / 1000) + 100 * (Y / 100 mod 10)
                   + 10 * (Y / 10 mod 10) + Y mod 10)
    by (Z.div_mod_to_equations; lia).
  assert (EM : M = M / 10 * 10 + M mod 10) by (Z.div_mod_to_equations; lia).
  assert (ED : D = D / 10 * 10 + D mod 10) by (Z.div_mod_to_equations; lia).
  assert (Hd : forall x k, 0 <= x <= 9999 -> is_digit (x / k mod 10))
    by (intros x k Hx; unfold is_digit; Z.div_mod_to_equations; lia).
  assert (Hy1 : is_digit (Y / 1000))
    by (unfold is_digit; Z.div_mod_to_equations; lia).
  assert (Hy4 : is_digit (Y mod 10))
    by (unfold is_digit; Z.div_mod_to_equations; lia).
  assert (Hm1 : is_digit (M / 10))
    by (unfold is_digit; Z.div_mod_to_equations; lia).
  assert (Hm2 : is_digit (M mod 10))
    by (unfold is_digit; Z.div_mod_to_equations; lia).
  assert (Hd1 : is_digit (D / 10))
    by (unfold is_digit; Z.div_mod_to_equations; lia).
  assert (Hd2 : is_digit (D mod 10))
    by (unfold is_digit; Z.div_mod_to_equations; lia).
  rewrite EY at 1. rewrite EM at 1. rewrite ED at 1.
  rewrite Format_digits by auto.
  rewrite Parse_ymd_text by auto. cbv zeta.
  rewrite <- EY, <- EM, <- ED.
  destruct HM as [HMa HMb]. destruct HD as [HDa HDb].
  apply Z.leb_le in HMa, HMb, HDa, HDb.
  now rewrite HMa, HMb, HDa, HDb.
Qed.

Lemma Format_Parse_id (text : string) (t : Time) :
  time.Parse text = Some t -> time.Format t = text.
Proof.
  intros H.
  destruct (Parse_inv text t H)
    as (y1 & y2 & y3 & y4 & m1 & m2 & d1 & d2 & Hy1 & Hy2 & Hy3 & Hy4
        & Hm1 & Hm2 & Hd1 & Hd2 & -> & -> & _).
  now apply Format_digits.
Qed.

End DateTextFacts.

(** X7. [CreateUser] and [UpdateUser] let a request through exactly when
    the name is not empty and the date is a text of ten characters,
    four digits, a dash, two digits, a dash, two digits, that names a day
    of the calendar (month 01 to 12, day within the month, leap years
    counted). *)
Theorem validation_accepts_exactly :
  forall (id : Z) (name dob : string),
    (~ fails_validation (service.CreateUser name dob)
     <-> name <> "" /\ date_text dob)
    /\ (~ fails_validation (service.UpdateUser id name dob)
        <-> name <> "" /\ date_text dob)
    /\ (date_text dob -> String.length dob = 10%nat).
Proof.
  intros id name dob.
  rewrite CreateUser_fails_iff, UpdateUser_fails_iff, <- Parse_some_iff.
  split; [| split].
  - destruct (invalid_dec name dob); tauto.
  - destruct (invalid_dec name dob); tauto.
  - intros Hp.
    destruct (proj1 (Parse_some_iff dob) Hp)
      as (y1 & y2 & y3 & y4 & m1 & m2 & d1 & d2 & H).
    decompose [and] H. subst dob. reflexivity.
Qed.

(** X8. Round trip, from a date to its text and back: a calendar day of
    a year from 0 to 9999, formatted as the responses format it, parses
    to the same day, so the text passes the validation of [CreateUser]
    and [UpdateUser]. *)
Theorem Format_Parse_round_trip :
  forall (t : Time) (id : Z) (name : string),
    four_digit_date t ->
    time.Parse (time.Format t) = Some t
    /\ (name <> "" ->
        service.CreateUser name (time.Format t)
        = call (Create name (time.Format t))
        /\ service.UpdateUser id name (time.Format t)
           = call (Update id name (time.Format t))).
Proof.
  intros t id name Ht.
  pose proof (Parse_Format_id t Ht) as Hp.
  split; [exact Hp |]. intros Hn. split.
  - apply CreateUser_delegates; [exact Hn | rewrite Hp; discriminate].
  - apply UpdateUser_delegates; [exact Hn | rewrite Hp; discriminate].
Qed.

Lemma Format_Parse_round_trip_witness :
  four_digit_date (Date 2024 2 29)
  /\ time.Parse (time.Format (Date 2024 2 29)) = Some (Date 2024 2 29).
Proof.
  assert (Ht : four_digit_date (Date 2024 2 29))
    by (unfold four_digit_date; cbn; lia).
  split; [exact Ht |].
  exact (proj1 (Format_Parse_round_trip (Date 2024 2 29) 1 "Alice" Ht)).
Defined.

(** X9. Round trip, from a text to its date and back: a date text that
    parses is reproduced character by character when the date is
    formatted, and the date is a calendar day of a year from 0 to 9999.
    So the date the repository builds from an accepted text prints as
    that text. *)
Theorem Parse_Format_round_trip :
  forall (text : string) (t : Time),
    time.Parse text = Some t ->
    time.Format t = text
    /\ four_digit_date t
    /\ time.Format (pgtype.Time (repository.parsePGDate text)) = text.
Proof.
  intros text t H.
  pose proof (Format_Parse_id text t H) as Hf.
  split; [exact Hf | split].
  - exact (Parse_sound text t H).
  - unfold repository.parsePGDate. rewrite H. exact Hf.
Qed.

Lemma Parse_Format_round_trip_witness :
  time.Parse "1999-12-31" = Some (Date 1999 12 31)
  /\ time.Format (Date 1999 12 31) = "1999-12-31".
Proof.
  assert (Hp : time.Parse "1999-12-31" = Some (Date 1999 12 31))
    by reflexivity.
  split; [exact Hp |].
  exact (proj1 (Parse_Format_round_trip "1999-12-31" (Date 1999 12 31) Hp)).
Defined.

(** ** The repository over the query layer *)

(** X10. Called directly with a date text that does not parse, the
    repository still runs the query: [parsePGDate] drops the parse error,
    so the insert or update carries the date 0001-01-01, marked valid. *)
Theorem repository_malformed_date :
  forall (S : Type) (queries : sqlc.Queries S) (s : S)
         (id : Z) (name dob : string),
    time.Parse dob = None ->
    @repo_Create S (repository.userRepository queries) name dob s
    = sqlc.CreateUser
        (sqlc.mkCreateUserParams name (pgtype.mkDate (Date 1 1 1) true)) s
    /\ @repo_Update S (repository.userRepository queries) id name dob s
       = sqlc.UpdateUser
           (sqlc.mkUpdateUserParams id name (pgtype.mkDate (Date 1 1 1) true))
           s.
Proof.
  intros S queries s id name dob Hp.
  cbn [repo_Create repo_Update repository.userRepository].
  unfold repository.parsePGDate. rewrite Hp. split; reflexivity.
Qed.

Lemma repository_malformed_date_witness :
  time.Parse "31/12/1999" = None
  /\ @repo_Create (list Query) (repository.userRepository recordingQueries)
       "Bob" "31/12/1999" []
     = ((db.mkUser 1 "Bob" (pgtype.mkDate (Date 1 1 1) true) 0 0, None),
        [QCreateUser
           (sqlc.mkCreateUserParams "Bob" (pgtype.mkDate (Date 1 1 1) true))]).
Proof.
  assert (Hp : time.Parse "31/12/1999" = None) by reflexivity.
  split; [exact Hp |].
  exact (proj1 (repository_malformed_date (list Query) recordingQueries []
                  1 "Bob" "31/12/1999" Hp)).
Defined.

(** X11. Through the service the fallback date never arises.  Run over
    the repository, [CreateUser] either refuses the request and runs no
    query, or runs the insert with the caller's name and the day the
    date text spells, a calendar day marked valid; [UpdateUser] does the
    same with the update. *)
Theorem service_over_repository :
  forall (S : Type) (queries : sqlc.Queries S) (s : S)
         (id : Z) (name dob : string),
    let run := @exec S (repository.userRepository queries)
                 (db.User * option error) in
    ((name = "" \/ time.Parse dob = None)
     /\ calls (run (service.CreateUser name dob) s) = []
     /\ store (run (service.CreateUser name dob) s) = s
     /\ calls (run (service.UpdateUser id name dob) s) = []
     /\ store (run (service.UpdateUser id name dob) s) = s)
    \/ (exists t : Time,
           name <> "" /\ time.Parse dob = Some t /\ four_digit_date t
           /\ (result (run (service.CreateUser name dob) s),
               store (run (service.CreateUser name dob) s))
              = sqlc.CreateUser
                  (sqlc.mkCreateUserParams name (pgtype.mkDate t true)) s
           /\ (result (run (service.UpdateUser id name dob) s),
               store (run (service.UpdateUser id name dob) s))
              = sqlc.UpdateUser
                  (sqlc.mkUpdateUserParams id name (pgtype.mkDate t true)) s).
Proof.
  intros S queries s id name dob run. unfold run.
  destruct (invalid_dec name dob) as [Hbad | [Hn Hp]].
  - left. split; [exact Hbad |].
    destruct (proj2 (CreateUser_fails_iff name dob) Hbad) as [e [_ ->]].
    destruct (proj2 (UpdateUser_fails_iff id name dob) Hbad) as [e' [_ ->]].
    repeat split.
  - right.
    assert (Ht : exists t, time.Parse dob = Some t)
      by (destruct (time.Parse dob) as [t |]; [now exists t | congruence]).
    destruct Ht as [t E].
    exists t. split; [exact Hn | split; [exact E | split]].
    + exact (Parse_sound dob t E).
    + rewrite (CreateUser_delegates name dob Hn Hp).
      rewrite (UpdateUser_delegates id name dob Hn Hp).
      unfold call. cbn [exec handle repo_Create repo_Update
                          repository.userRepository].
      unfold repository.parsePGDate. rewrite E.
      split.
      * now destruct (sqlc.CreateUser _ s).
      * now destruct (sqlc.UpdateUser _ s).
Qed.

(** ** The HTTP handlers *)

Section HandlerFacts.

Lemma utf8_count_le_length (s : string) :
  forall skip : nat,
    0 <= utf8.count_from skip s <= Z.of_nat (String.length s).
Proof.
  induction s as [| c rest IH]; intros skip; cbn [utf8.count_from String.length].
  - lia.
  - destruct skip as [| k].
    + specialize (IH (utf8.size_at c rest - 1)%nat). lia.
    + specialize (IH k). lia.
Qed.

Lemma utf8_size_at_le_4 (c : ascii) (rest : string) :
  (1 <= utf8.size_at c rest <= 4)%nat.
Proof.
  unfold utf8.size_at.
  repeat match goal with
         | |- context [if ?b then _ else _] => destruct b
         | |- context [match ?x with _ => _ end] => destruct x
         end; lia.
Qed.

Lemma utf8_length_le_4_count (s : string) :
  forall skip : nat,
    Z.of_nat (String.length s)
    <= 4 * utf8.count_from skip s + Z.of_nat skip.
Proof.
  induction s as [| c rest IH]; intros skip; cbn [utf8.count_from String.length].
  - lia.
  - destruct skip as [| k].
    + specialize (IH (utf8.size_at c rest - 1)%nat).
      pose proof (utf8_size_at_le_4 c rest). lia.
    + specialize (IH k). lia.
Qed.

Lemma utf8_count_ascii (s : string) :
  ascii_only s = true ->
  utf8.count_from 0 s = Z.of_nat (String.length s).
Proof.
  induction s as [| c rest IH]; cbn [ascii_only utf8.count_from String.length].
  - reflexivity.
  - intros H. apply andb_true_iff in H. destruct H as [Hc Hrest].
    unfold utf8.size_at. rewrite Hc. cbn [Nat.sub].
    rewrite (IH Hrest). lia.
Qed.

(** A request that passes the struct validation has a name. *)
Lemma Struct_name_nonempty (name dob : string) :
  validator.Struct name dob = true -> name <> "".
Proof.
  unfold validator.Struct, validator.required. intros H.
  repeat (apply andb_true_iff in H; destruct H as [H ?]).
  apply negb_true_iff in H. intros ->. discriminate H.
Qed.

Context {S : Type} `{UserRepository S}.

Lemma exec_bind {A B : Type} (m : Svc A) (f : A -> Svc B) (s : S) :
  exec (bind m f) s
  = mkOutcome
      (result (exec (f (result (exec m s))) (store (exec m s))))
      (store (exec (f (result (exec m s))) (store (exec m s))))
      (calls (exec m s)
       ++ calls (exec (f (result (exec m s))) (store (exec m s))))%list.
Proof.
  revert s. induction m as [r | c k IH]; intros s.
  - cbn [bind exec result store calls app].
    now destruct (exec (f r) s).
  - cbn [bind exec]. destruct (handle c s) as [x s'].
    rewrite IH. reflexivity.
Qed.

(** [handler.CreateUser] on a request that passed the struct
    validation. *)
Lemma exec_handler_CreateUser (name dob : string) (s : S) :
  validator.Struct name dob = true ->
  exec (handler.CreateUser (Some (models.mkCreateUserRequest name dob))) s
  = match time.Parse dob with
    | None =>
        mkOutcome
          (handler.mkResponse 400
             (handler.ErrorBody "invalid date format, use YYYY-MM-DD"))
          s []
    | Some _ =>
        match repo_Create name dob s with
        | ((_, Some e), s') =>
            mkOutcome
              (handler.mkResponse 400 (handler.ErrorBody (handler.Error e)))
              s' [Create name dob]
        | ((user, None), s') =>
            mkOutcome
              (handler.mkResponse 201
                 (handler.UserBody
                    (models.mkUserResponse (db.ID user) (db.Name user)
                       (time.Format (pgtype.Time (db.Dob user))) None)))
              s' [Create name dob]
        end
    end.
Proof.
  intros Hv. pose proof (Struct_name_nonempty name dob Hv) as Hn.
  unfold handler.CreateUser. cbn [models.req_Name models.req_DOB].
  rewrite Hv. cbn [negb].
  destruct (time.Parse dob) as [t |] eqn:Ep.
  - rewrite (CreateUser_delegates name dob Hn) by (rewrite Ep; discriminate).
    unfold call. cbn [bind exec handle].
    destruct (repo_Create name dob s) as [[user [e |]] s']; reflexivity.
  - rewrite (CreateUser_bad_date name dob Hn Ep). reflexivity.
Qed.

(** [handler.UpdateUser] likewise, with an id text that is a number. *)
Lemma exec_handler_UpdateUser (idStr name dob : string) (id : Z) (s : S) :
  strconv.Atoi idStr = (id, None) ->
  validator.Struct name dob = true ->
  exec (handler.UpdateUser idStr
          (Some (models.mkUpdateUserRequest name dob))) s
  = match time.Parse dob with
    | None =>
        mkOutcome
          (handler.mkResponse 400
             (handler.ErrorBody "invalid date format, use YYYY-MM-DD"))
          s []
    | Some _ =>
        match repo_Update (GoInt.int32 id) name dob s with
        | ((_, Some e), s') =>
            mkOutcome
              (handler.mkResponse 400 (handler.ErrorBody (handler.Error e)))
              s' [Update (GoInt.int32 id) name dob]
        | ((user, None), s') =>
            mkOutcome
              (handler.mkResponse 200
                 (handler.UserBody
                    (models.mkUserResponse (db.ID user) (db.Name user)
                       (time.Format (pgtype.Time (db.Dob user))) None)))
              s' [Update (GoInt.int32 id) name dob]
        end
    end.
Proof.
  intros Hid Hv. pose proof (Struct_name_nonempty name dob Hv) as Hn.
  unfold handler.UpdateUser. rewrite Hid.
  cbn [models.upd_Name models.upd_DOB].
  rewrite Hv. cbn [negb].
  destruct (time.Parse dob) as [t |] eqn:Ep.
  - rewrite (UpdateUser_delegates (GoInt.int32 id) name dob Hn)
      by (rewrite Ep; discriminate).
    unfold call. cbn [bind exec handle].
    destruct (repo_Update (GoInt.int32 id) name dob s)
      as [[user [e |]] s']; reflexivity.
  - rewrite (UpdateUser_bad_date (GoInt.int32 id) name dob Hn Ep).
    reflexivity.
Qed.

End HandlerFacts.

(** X12. The create and update handlers answer 400 without reaching the
    service's repository when the body does not decode or the decoded
    request fails the struct validation; the store is left as it was.
    For the update handler this holds whatever the id text is. *)
Theorem handler_rejects_before_service :
  forall (S : Type) (repo : UserRepository S) (s : S) (idStr : string)
         (parsedC : option models.CreateUserRequest)
         (parsedU : option models.UpdateUserRequest),
    (match parsedC with
     | None => True
     | Some req =>
         validator.Struct (models.req_Name req) (models.req_DOB req) = false
     end ->
     handler.Status (result (exec (handler.CreateUser parsedC) s)) = 400
     /\ calls (exec (handler.CreateUser parsedC) s) = []
     /\ store (exec (handler.CreateUser parsedC) s) = s)
    /\ (match parsedU with
        | None => True
        | Some req =>
            validator.Struct (models.upd_Name req) (models.upd_DOB req) = false
        end ->
        handler.Status (result (exec (handler.UpdateUser idStr parsedU) s))
        = 400
        /\ calls (exec (handler.UpdateUser idStr parsedU) s) = []
        /\ store (exec (handler.UpdateUser idStr parsedU) s) = s).
Proof.
  intros S repo s idStr parsedC parsedU. split.
  - destruct parsedC as [req |]; intros Hrej; unfold handler.CreateUser.
    + rewrite Hrej. repeat split.
    + repeat split.
  - unfold handler.UpdateUser.
    destruct (strconv.Atoi idStr) as [id [e |]]; [intros _; repeat split |].
    destruct parsedU as [req |]; intros Hrej.
    + rewrite Hrej. repeat split.
    + repeat split.
Qed.

Lemma handler_rejects_before_service_witness :
  validator.Struct "A" "1990-01-01" = false
  /\ handler.Status
       (result (exec (handler.CreateUser
                        (Some (models.mkCreateUserRequest "A" "1990-01-01")))
                  (cannedOk 1))) = 400
  /\ calls (exec (handler.CreateUser
                    (Some (models.mkCreateUserRequest "A" "1990-01-01")))
              (cannedOk 1)) = [].
Proof.
  assert (Hrej : validator.Struct "A" "1990-01-01" = false) by reflexivity.
  split; [exact Hrej |].
  pose proof (proj1 (handler_rejects_before_service Canned cannedRepo
                       (cannedOk 1) "1"
                       (Some (models.mkCreateUserRequest "A" "1990-01-01"))
                       None) Hrej) as Hw.
  split; [exact (proj1 Hw) | exact (proj1 (proj2 Hw))].
Defined.

Lemma struct_bounds_facts :
  forall name dob : string,
    (validator.Struct name dob = true
     <-> 2 <= utf8.RuneCountInString name <= 100 /\ dob <> "")
    /\ utf8.RuneCountInString name <= Z.of_nat (String.length name)
       <= 4 * utf8.RuneCountInString name
    /\ (ascii_only name = true ->
        utf8.RuneCountInString name = Z.of_nat (String.length name)).
Proof.
  intros name dob. split; [| split].
  - unfold validator.Struct, validator.required, validator.min,
      validator.max.
    rewrite !andb_true_iff, !negb_true_iff, !Z.leb_le.
    split.
    + intros [[[_ Hmin] Hmax] Hd]. split; [lia |].
      intros ->. discriminate Hd.
    + intros [[Hmin Hmax] Hd]. repeat split; try assumption.
      * destruct name; [cbn in Hmin; lia | reflexivity].
      * destruct (String.eqb dob "") eqn:E; [| reflexivity].
        apply String.eqb_eq in E. contradiction.
  - unfold utf8.RuneCountInString.
    pose proof (utf8_count_le_length name 0).
    pose proof (utf8_length_le_4_count name 0). lia.
  - apply utf8_count_ascii.
Qed.

(** X13. The struct validation of a request passes exactly when the
    name has 2 to 100 characters, counted as UTF-8 runes, and the date
    text is not empty.  The rune count is at most the length in bytes
    and at least a quarter of it, and equals it for an ASCII name: so a
    name of fewer than 2 bytes or of more than 400 is always refused, and
    an ASCII name passes exactly when it has 2 to 100 bytes. *)
Theorem struct_validation_bounds :
  forall name dob : string,
    (validator.Struct name dob = true
     <-> 2 <= utf8.RuneCountInString name <= 100 /\ dob <> "")
    /\ utf8.RuneCountInString name <= Z.of_nat (String.length name)
       <= 4 * utf8.RuneCountInString name
    /\ (ascii_only name = true ->
        utf8.RuneCountInString name = Z.of_nat (String.length name)).
Proof. exact struct_bounds_facts. Qed.

Lemma struct_validation_bounds_witness :
  ascii_only "Alice" = true
  /\ utf8.RuneCountInString "Alice" = 5
  /\ validator.Struct "Alice" "x" = true.
Proof.
  assert (Ha : ascii_only "Alice" = true) by reflexivity.
  split; [exact Ha |].
  pose proof (proj2 (proj2 (struct_validation_bounds "Alice" "x")) Ha) as Hw.
  split; [exact Hw |].
  apply (proj1 (struct_validation_bounds "Alice" "x")).
  rewrite Hw. cbn. split; [lia | discriminate].
Defined.

(** X14. The create handler answers 201 or 400, and 201 exactly when
    the body decodes, the request passes the struct validation, the
    date text parses and the repository's create returns no error.  The
    201 body is the row the repository returned, with the date of birth
    as text and no age; exactly one repository call was made. *)
Theorem handler_CreateUser_created :
  forall (S : Type) (repo : UserRepository S) (s : S)
         (parsed : option models.CreateUserRequest),
    let o := exec (handler.CreateUser parsed) s in
    (handler.Status (result o) = 400 \/ handler.Status (result o) = 201)
    /\ (handler.Status (result o) = 201 <->
        exists (name dob : string) (user : db.User) (s' : S),
          parsed = Some (models.mkCreateUserRequest name dob)
          /\ validator.Struct name dob = true
          /\ time.Parse dob <> None
          /\ repo_Create name dob s = ((user, None), s')
          /\ o = mkOutcome
                   (handler.mkResponse 201
                      (handler.UserBody
                         (models.mkUserResponse (db.ID user) (db.Name user)
                            (time.Format (pgtype.Time (db.Dob user))) None)))
                   s' [Create name dob]).
Proof.
  intros S repo s parsed o. subst o.
  destruct parsed as [[name dob] |].
  - destruct (validator.Struct name dob) eqn:Ev.
    + rewrite (exec_handler_CreateUser name dob s Ev).
      destruct (time.Parse dob) as [t |] eqn:Ep.
      * destruct (repo_Create name dob s) as [[user [e |]] s'] eqn:Ec.
        -- split; [left; reflexivity |]. split; [discriminate |].
           intros (n & d & u & s2 & [= <- <-] & _ & _ & Hc & _).
           rewrite Ec in Hc. discriminate Hc.
        -- split; [right; reflexivity |]. split; [intros _ | reflexivity].
           exists name, dob, user, s'.
           split; [reflexivity |]. split; [exact Ev |].
           split; [rewrite Ep; discriminate |].
           split; [exact Ec | reflexivity].
      * split; [left; reflexivity |]. split; [discriminate |].
        intros (n & d & u & s2 & [= <- <-] & _ & Hp & _). congruence.
    + unfold handler.CreateUser. cbn [models.req_Name models.req_DOB].
      rewrite Ev. cbn [negb exec result handler.Status].
      split; [left; reflexivity |]. split; [discriminate |].
      intros (n & d & u & s2 & [= <- <-] & Hv & _). congruence.
  - cbn. split; [left; reflexivity |]. split; [discriminate |].
    intros (n & d & u & s2 & Hn & _). discriminate Hn.
Qed.

(** X15. A request that passed the struct validation and then fails in
    the service is answered 400 with the text of the service's error:
    the date message when the date does not parse (no repository call),
    the repository's own error otherwise.  The update handler does so
    for an unknown id too: it answers 400 or 200, never 404. *)
Theorem handler_write_errors :
  forall (S : Type) (repo : UserRepository S) (s : S)
         (idStr name dob : string) (id : Z)
         (parsed : option models.UpdateUserRequest),
    (validator.Struct name dob = true ->
     (time.Parse dob = None ->
      exec (handler.CreateUser (Some (models.mkCreateUserRequest name dob))) s
      = mkOutcome
          (handler.mkResponse 400
             (handler.ErrorBody "invalid date format, use YYYY-MM-DD")) s [])
     /\ (forall (u : db.User) (e : error) (s' : S),
            time.Parse dob <> None ->
            repo_Create name dob s = ((u, Some e), s') ->
            exec (handler.CreateUser
                    (Some (models.mkCreateUserRequest name dob))) s
            = mkOutcome
                (handler.mkResponse 400 (handler.ErrorBody (handler.Error e)))
                s' [Create name dob])
     /\ (forall (u : db.User) (s' : S),
            strconv.Atoi idStr = (id, None) ->
            time.Parse dob <> None ->
            repo_Update (GoInt.int32 id) name dob s
            = ((u, Some ErrNoRows), s') ->
            exec (handler.UpdateUser idStr
                    (Some (models.mkUpdateUserRequest name dob))) s
            = mkOutcome
                (handler.mkResponse 400
                   (handler.ErrorBody "no rows in result set"))
                s' [Update (GoInt.int32 id) name dob]))
    /\ (handler.Status (result (exec (handler.UpdateUser idStr parsed) s))
        = 400
        \/ handler.Status (result (exec (handler.UpdateUser idStr parsed) s))
           = 200).
Proof.
  intros S repo s idStr name dob id parsed. split.
  - intros Hv. split; [| split].
    + intros Hp. rewrite (exec_handler_CreateUser name dob s Hv).
      now rewrite Hp.
    + intros u e s' Hp Hc. rewrite (exec_handler_CreateUser name dob s Hv).
      destruct (time.Parse dob); [| congruence]. now rewrite Hc.
    + intros u s' Hid Hp Hu.
      rewrite (exec_handler_UpdateUser idStr name dob id s Hid Hv).
      destruct (time.Parse dob); [| congruence]. now rewrite Hu.
  - destruct (strconv.Atoi idStr) as [n [e |]] eqn:Hid.
    + unfold handler.UpdateUser. rewrite Hid. left. reflexivity.
    + destruct parsed as [[n' d'] |].
      * destruct (validator.Struct n' d') eqn:Ev.
        -- rewrite (exec_handler_UpdateUser idStr n' d' n s Hid Ev).
           destruct (time.Parse d'); [| left; reflexivity].
           destruct (repo_Update _ n' d' s) as [[u [e |]] s'];
             [left | right]; reflexivity.
        -- unfold handler.UpdateUser. rewrite Hid.
           cbn [models.upd_Name models.upd_DOB]. rewrite Ev.
           left. reflexivity.
      * unfold handler.UpdateUser. rewrite Hid. left. reflexivity.
Qed.

Lemma handler_write_errors_witness :
  validator.Struct "Alice" "1990-05-10" = true
  /\ strconv.Atoi "7" = (7, None)
  /\ exec (handler.UpdateUser "7"
             (Some (models.mkUpdateUserRequest "Alice" "1990-05-10")))
       cannedNoRows
     = mkOutcome
         (handler.mkResponse 400 (handler.ErrorBody "no rows in result set"))
         cannedNoRows [Update 7 "Alice" "1990-05-10"].
Proof.
  assert (Hv : validator.Struct "Alice" "1990-05-10" = true) by reflexivity.
  assert (Hid : strconv.Atoi "7" = (7, None)) by reflexivity.
  assert (Hp : time.Parse "1990-05-10" <> None) by discriminate.
  split; [exact Hv | split; [exact Hid |]].
  exact (proj2 (proj2 (proj1 (handler_write_errors Canned cannedRepo
                                cannedNoRows "7" "Alice" "1990-05-10" 7 None)
                         Hv))
           db.User_zero cannedNoRows Hid Hp eq_refl).
Defined.

Section IdHandlers.

Lemma wrap32_congruent (a b : Z) :
  (a - b) mod 2 ^ 32 = 0 -> GoInt.int32 a = GoInt.int32 b.
Proof.
  unfold GoInt.int32, GoInt.wrap.
  change (2 ^ (32 - 1)) with 2147483648.
  change (2 ^ 32) with 4294967296. intros Hc.
  f_equal.
  apply Z.mod_divide in Hc; [| lia]. destruct Hc as [k Hk].
  replace (a + 2147483648) with (b + 2147483648 + k * 4294967296) by lia.
  apply Z.mod_add. lia.
Qed.

(** A syntax error of [Atoi] comes with the value 0. *)
Lemma Atoi_syntax_zero (s : string) :
  snd (strconv.Atoi s) = Some strconv.ErrSyntax -> fst (strconv.Atoi s) = 0.
Proof.
  unfold strconv.Atoi. cbv zeta.
  destruct ((0 <? String.length s)%nat && (String.length s <? 19)%nat).
  - destruct s as [| c0 rest]; [reflexivity |].
    destruct ((Ascii.eqb c0 "-" || Ascii.eqb c0 "+")
              && (String.length
                    (if Ascii.eqb c0 "-" || Ascii.eqb c0 "+"
                     then rest else String c0 rest) <? 1)%nat);
      [reflexivity |].
    destruct (strconv.atoi_digits 0 _); [discriminate | reflexivity].
  - unfold strconv.ParseInt.
    destruct s as [| c0 rest]; [reflexivity |].
    destruct (if Ascii.eqb c0 "+" then (false, rest)
              else if Ascii.eqb c0 "-" then (true, rest)
                   else (false, String c0 rest)) as [neg s'].
    destruct (strconv.ParseUint s') as [un [[] |]]; cbn [fst snd].
    + reflexivity.
    + destruct (negb neg && (2 ^ 63 <=? un)); [discriminate |].
      destruct (neg && (2 ^ 63 <? un)); discriminate.
    + destruct (negb neg && (2 ^ 63 <=? un)); [discriminate |].
      destruct (neg && (2 ^ 63 <? un)); discriminate.
Qed.

End IdHandlers.

(** X16. The get handler answers 400 without a repository call when
    the id text is not a number; otherwise it makes the one call
    [GetByID] and answers 404 for any error of it, and 200 with the row,
    its date of birth as text and its age at [now] when there is
    none. *)
Theorem handler_GetUser_outcomes :
  forall (S : Type) (repo : UserRepository S) (s : S)
         (now : Time) (idStr : string),
    match strconv.Atoi idStr with
    | (_, Some _) =>
        exec (handler.GetUser now idStr) s
        = mkOutcome
            (handler.mkResponse 400 (handler.ErrorBody "Invalid user ID"))
            s []
    | (id, None) =>
        match repo_GetByID (GoInt.int32 id) s with
        | ((_, Some _), s') =>
            exec (handler.GetUser now idStr) s
            = mkOutcome
                (handler.mkResponse 404 (handler.ErrorBody "User not found"))
                s' [GetByID (GoInt.int32 id)]
        | ((user, None), s') =>
            exec (handler.GetUser now idStr) s
            = mkOutcome
                (handler.mkResponse 200
                   (handler.UserBody
                      (models.mkUserResponse (db.ID user) (db.Name user)
                         (time.Format (pgtype.Time (db.Dob user)))
                         (Some (service.CalculateAge now
                                  (pgtype.Time (db.Dob user)))))))
                s' [GetByID (GoInt.int32 id)]
        end
    end.
Proof.
  intros S repo s now idStr. unfold handler.GetUser.
  destruct (strconv.Atoi idStr) as [id [e |]]; [reflexivity |].
  unfold service.GetUserByID, call. cbn [bind exec handle].
  destruct (repo_GetByID (GoInt.int32 id) s) as [[user [e |]] s'];
    reflexivity.
Qed.

(** X17. The delete handler answers 400 without a repository call when
    the id text is not a number; otherwise it makes the one call
    [Delete] and answers 404 for any error of it and 204 with no body
    when there is none. *)
Theorem handler_DeleteUser_outcomes :
  forall (S : Type) (repo : UserRepository S) (s : S) (idStr : string),
    match strconv.Atoi idStr with
    | (_, Some _) =>
        exec (handler.DeleteUser idStr) s
        = mkOutcome
            (handler.mkResponse 400 (handler.ErrorBody "Invalid user ID"))
            s []
    | (id, None) =>
        match repo_Delete (GoInt.int32 id) s with
        | (Some _, s') =>
            exec (handler.DeleteUser idStr) s
            = mkOutcome
                (handler.mkResponse 404 (handler.ErrorBody "User not found"))
                s' [Delete (GoInt.int32 id)]
        | (None, s') =>
            exec (handler.DeleteUser idStr) s
            = mkOutcome (handler.mkResponse 204 handler.NoBody)
                s' [Delete (GoInt.int32 id)]
        end
    end.
Proof.
  intros S repo s idStr. unfold handler.DeleteUser.
  destruct (strconv.Atoi idStr) as [id [e |]]; [reflexivity |].
  unfold service.DeleteUser, call. cbn [bind exec handle].
  destruct (repo_Delete (GoInt.int32 id) s) as [[e |] s']; reflexivity.
Qed.

(** X18. The handlers narrow the id to 32 bits without a range check:
    two id texts that are numbers differing by a multiple of 2^32 are
    the same request to the get, update and delete handlers.  The path
    id 4294967297 addresses the row with id 1. *)
Theorem handler_id_narrowed :
  forall (now : Time) (idStr1 idStr2 : string) (id1 id2 : Z)
         (parsed : option models.UpdateUserRequest),
    strconv.Atoi idStr1 = (id1, None) ->
    strconv.Atoi idStr2 = (id2, None) ->
    (id1 - id2) mod 2 ^ 32 = 0 ->
    handler.GetUser now idStr1 = handler.GetUser now idStr2
    /\ handler.UpdateUser idStr1 parsed = handler.UpdateUser idStr2 parsed
    /\ handler.DeleteUser idStr1 = handler.DeleteUser idStr2.
Proof.
  intros now idStr1 idStr2 id1 id2 parsed H1 H2 Hc.
  unfold handler.GetUser, handler.UpdateUser, handler.DeleteUser.
  rewrite H1, H2, (wrap32_congruent id1 id2 Hc). repeat split.
Qed.

Lemma handler_id_narrowed_witness :
  strconv.Atoi "4294967297" = (4294967297, None)
  /\ strconv.Atoi "1" = (1, None)
  /\ (4294967297 - 1) mod 2 ^ 32 = 0
  /\ handler.GetUser (Date 2024 6 15) "4294967297"
     = handler.GetUser (Date 2024 6 15) "1".
Proof.
  assert (H1 : strconv.Atoi "4294967297" = (4294967297, None)) by reflexivity.
  assert (H2 : strconv.Atoi "1" = (1, None)) by reflexivity.
  assert (Hc : (4294967297 - 1) mod 2 ^ 32 = 0) by reflexivity.
  split; [exact H1 | split; [exact H2 | split; [exact Hc |]]].
  exact (proj1 (handler_id_narrowed (Date 2024 6 15) "4294967297" "1"
                  4294967297 1 None H1 H2 Hc)).
Defined.

(** X19. The list handler drops the errors of [Atoi]: a page or limit
    value that is missing, empty or not a number stands for page 1 and
    limit 10.  It answers 200 with the envelope of the service, or 500
    when the service reports an error. *)
Theorem handler_ListUsers_defaults :
  forall (now : Time) (pageQ limitQ : string),
    ((pageQ = "" \/ snd (strconv.Atoi pageQ) = Some strconv.ErrSyntax) ->
     handler.ListUsers now pageQ limitQ = handler.ListUsers now "1" limitQ)
    /\ ((limitQ = "" \/ snd (strconv.Atoi limitQ) = Some strconv.ErrSyntax) ->
        handler.ListUsers now pageQ limitQ = handler.ListUsers now pageQ "10")
    /\ (forall (S : Type) (repo : UserRepository S) (s : S),
           let sv :=
             exec (service.ListUsers now
                     (fst (strconv.Atoi (handler.Query pageQ "1")))
                     (fst (strconv.Atoi (handler.Query limitQ "10")))) s in
           exec (handler.ListUsers now pageQ limitQ) s
           = mkOutcome
               (match snd (result sv) with
                | Some _ =>
                    handler.mkResponse 500
                      (handler.ErrorBody "Failed to retrieve users")
                | None =>
                    handler.mkResponse 200
                      (handler.ListBody (fst (result sv)))
                end)
               (store sv) (calls sv)).
Proof.
  intros now pageQ limitQ. split; [| split].
  - intros Hbad. unfold handler.ListUsers. cbv zeta.
    assert (Hp : service.ListUsers now
                   (fst (strconv.Atoi (handler.Query pageQ "1")))
                   (fst (strconv.Atoi (handler.Query limitQ "10")))
                 = service.ListUsers now
                     (fst (strconv.Atoi (handler.Query "1" "1")))
                     (fst (strconv.Atoi (handler.Query limitQ "10")))).
    { destruct Hbad as [-> | Hsyn]; [reflexivity |].
      unfold handler.Query at 1.
      destruct (String.eqb pageQ ""); [reflexivity |].
      rewrite (Atoi_syntax_zero pageQ Hsyn).
      etransitivity; [apply ListUsers_normal_args |].
      symmetry. etransitivity; [apply ListUsers_normal_args |].
      reflexivity. }
    now rewrite Hp.
  - intros Hbad. unfold handler.ListUsers. cbv zeta.
    assert (Hp : service.ListUsers now
                   (fst (strconv.Atoi (handler.Query pageQ "1")))
                   (fst (strconv.Atoi (handler.Query limitQ "10")))
                 = service.ListUsers now
                     (fst (strconv.Atoi (handler.Query pageQ "1")))
                     (fst (strconv.Atoi (handler.Query "10" "10")))).
    { destruct Hbad as [-> | Hsyn]; [reflexivity |].
      unfold handler.Query at 2.
      destruct (String.eqb limitQ ""); [reflexivity |].
      rewrite (Atoi_syntax_zero limitQ Hsyn).
      etransitivity; [apply ListUsers_normal_args |].
      symmetry. etransitivity; [apply ListUsers_normal_args |].
      reflexivity. }
    now rewrite Hp.
  - intros S repo s sv. subst sv. unfold handler.ListUsers. cbv zeta.
    rewrite exec_bind.
    destruct (exec (service.ListUsers now _ _) s) as [[response [e |]] s' tr];
      cbn [result store calls exec fst snd]; now rewrite app_nil_r.
Qed.

Lemma handler_ListUsers_defaults_witness :
  snd (strconv.Atoi "abc") = Some strconv.ErrSyntax
  /\ snd (strconv.Atoi "-") = Some strconv.ErrSyntax
  /\ handler.ListUsers (Date 2024 6 15) "abc" "-"
     = handler.ListUsers (Date 2024 6 15) "1" "10".
Proof.
  assert (Hp : snd (strconv.Atoi "abc") = Some strconv.ErrSyntax)
    by reflexivity.
  assert (Hl : snd (strconv.Atoi "-") = Some strconv.ErrSyntax)
    by reflexivity.
  split; [exact Hp | split; [exact Hl |]].
  rewrite (proj1 (handler_ListUsers_defaults (Date 2024 6 15) "abc" "-")
             (or_intror Hp)).
  exact (proj1 (proj2 (handler_ListUsers_defaults (Date 2024 6 15) "1" "-"))
           (or_intror Hl)).
Defined.

(** X20. At the create handler the length bound on names is in force:
    for an ASCII name and a date text that names a calendar day, the
    request is answered 201 when the name has 2 to 100 characters and
    the repository's create succeeds, and 400 without a repository call
    when the name is shorter or longer. *)
Theorem handler_name_length :
  forall (S : Type) (repo : UserRepository S) (s : S) (name dob : string),
    ascii_only name = true ->
    date_text dob ->
    let o := exec (handler.CreateUser
                     (Some (models.mkCreateUserRequest name dob))) s in
    ((2 <= String.length name <= 100)%nat ->
     forall (user : db.User) (s' : S),
       repo_Create name dob s = ((user, None), s') ->
       handler.Status (result o) = 201 /\ calls o = [Create name dob])
    /\ (~ (2 <= String.length name <= 100)%nat ->
        handler.Status (result o) = 400 /\ calls o = [] /\ store o = s).
Proof.
  intros S repo s name dob Ha Hd o. subst o.
  pose proof (proj2 (proj2 (struct_bounds_facts name dob)) Ha) as Hcount.
  assert (Hdob : dob <> "").
  { destruct Hd as (y1 & y2 & y3 & y4 & m1 & m2 & d1 & d2 & H).
    decompose [and] H. subst dob. discriminate. }
  apply Parse_some_iff in Hd.
  split.
  - intros Hlen user s' Hc.
    assert (Hv : validator.Struct name dob = true).
    { apply (proj1 (struct_bounds_facts name dob)). rewrite Hcount.
      split; [lia | exact Hdob]. }
    rewrite (exec_handler_CreateUser name dob s Hv).
    destruct (time.Parse dob); [| congruence].
    rewrite Hc. split; reflexivity.
  - intros Hlen.
    assert (Hv : validator.Struct name dob = false).
    { destruct (validator.Struct name dob) eqn:Ev; [| reflexivity].
      apply (proj1 (struct_bounds_facts name dob)) in Ev.
      rewrite Hcount in Ev. lia. }
    unfold handler.CreateUser. cbn [models.req_Name models.req_DOB].
    rewrite Hv. repeat split.
Qed.

Lemma handler_name_length_witness :
  ascii_only "Al" = true /\ date_text "2000-02-29"
  /\ (2 <= String.length "Al" <= 100)%nat
  /\ handler.Status
       (result (exec (handler.CreateUser
                        (Some (models.mkCreateUserRequest "Al" "2000-02-29")))
                  (cannedOk 1))) = 201.
Proof.
  assert (Ha : ascii_only "Al" = true) by reflexivity.
  assert (Hd : date_text "2000-02-29").
  { exists 2, 0, 0, 0, 0, 2, 2, 9. unfold is_digit, calendar_date.
    cbn. repeat split; try lia; discriminate. }
  assert (Hl : (2 <= String.length "Al" <= 100)%nat) by (cbn; lia).
  split; [exact Ha | split; [exact Hd | split; [exact Hl |]]].
  exact (proj1 (proj1 (handler_name_length Canned cannedRepo (cannedOk 1)
                         "Al" "2000-02-29" Ha Hd) Hl alice (cannedOk 1)
                  eq_refl)).
Defined.
